(** * Fine-tuning task modules of [model.py]: a shallow embedding

    The development follows [src/src2/model.py]: the binary head
    [MainModel], and the three Lightning modules
    [SequenceClassicationLightningModule],
    [LightningModuleForTokenClassification] and
    [LightningModuleForAutoModels].

    Conventions of the embedding.
    - A float tensor is a tensor over [R]: floating-point arithmetic is
      idealised by exact real arithmetic. An integer tensor is a tensor
      over [Z], a boolean array a list of [bool].
    - A Python exception is a [Raise] result; a method of a Lightning
      module is a computation in a state-and-exception monad over the
      module object, whose state survives a raised exception.
    - Library calls (torch, numpy, sklearn, the trainer) are modelled by
      their documented behaviour on the arguments the program passes.
    - Where rounding or a special value ([nan]) would decide an outcome,
      a statement carries the hypothesis that keeps its inputs away from
      that case. *)

From Stdlib Require Import String Ascii.
From Stdlib Require Import List ZArith QArith Reals Lra Lia Bool Permutation.
Import ListNotations.

Set Implicit Arguments.

(** ** Exceptions and the result of a call *)

Inductive exn : Type :=
| ValueError
| RuntimeError
| IndexError.

Inductive result (A : Type) : Type :=
| Ok (a : A)
| Raise (e : exn).

Arguments Ok {A} a.
Arguments Raise {A} e.

Definition rbind {A B} (r : result A) (k : A -> result B) : result B :=
  match r with
  | Ok a => k a
  | Raise e => Raise e
  end.

(** A list comprehension whose body may raise: the elements are evaluated
    left to right and the first exception aborts the comprehension. *)
Fixpoint rmap {A B} (f : A -> result B) (l : list A) : result (list B) :=
  match l with
  | [] => Ok []
  | x :: l' => rbind (f x) (fun y => rbind (rmap f l') (fun ys => Ok (y :: ys)))
  end.

(** ** The state-and-exception monad of a module object *)

Definition M (S A : Type) : Type := S -> result A * S.

Definition ret {S A} (a : A) : M S A := fun s => (Ok a, s).

Definition bind {S A B} (m : M S A) (k : A -> M S B) : M S B :=
  fun s =>
    match m s with
    | (Ok a, s') => k a s'
    | (Raise e, s') => (Raise e, s')
    end.

Definition lift {S A} (r : result A) : M S A := fun s => (r, s).

Definition modify {S} (f : S -> S) : M S unit := fun s => (Ok tt, f s).

Definition gets {S A} (f : S -> A) : M S A := fun s => (Ok (f s), s).

Declare Scope py_scope.
Delimit Scope py_scope with py.
Notation "x <- m ;; k" := (bind m (fun x => k))
  (at level 61, m at next level, right associativity) : py_scope.
Notation "m ;;; k" := (bind m (fun _ => k))
  (at level 61, right associativity) : py_scope.

(** ** torch: tensors and the operations the program calls *)

Module torch.

(** A tensor is its shape and its elements in row-major order. *)
Record tensor (A : Type) : Type := mkTensor {
  shape : list nat;
  data : list A
}.

Definition numel (s : list nat) : nat := fold_right Nat.mul 1%nat s.

Definition tmap {A B} (f : A -> B) (t : tensor A) : tensor B :=
  mkTensor (shape t) (map f (data t)).

(** [t.squeeze()]: every dimension of size one is removed. *)
Definition squeeze {A} (t : tensor A) : tensor A :=
  mkTensor (filter (fun d => negb (d =? 1)%nat) (shape t)) (data t).

(** [t.view(-1)]: one dimension holding all the elements. *)
Definition view_flat {A} (t : tensor A) : tensor A :=
  mkTensor [numel (shape t)] (data t).

Definition shape_eqb (s1 s2 : list nat) : bool :=
  if list_eq_dec Nat.eq_dec s1 s2 then true else false.

(** [torch.cat(ts)] along dimension 0.  It raises on an empty list and
    on a zero-dimensional tensor; the tensors must agree on all
    dimensions but the first, except that a one-dimensional empty
    tensor (shape [(0,)]) is skipped. *)
Definition is_skipped (s : list nat) : bool := shape_eqb s [0%nat].

Fixpoint cat_shape (acc : option (list nat)) (ss : list (list nat))
  : result (list nat) :=
  match ss with
  | [] => match acc with
          | Some s => Ok s
          | None => Ok [0%nat]
          end
  | [] :: _ => Raise RuntimeError
  | (d :: tl) :: ss' =>
      if is_skipped (d :: tl) then cat_shape acc ss'
      else match acc with
           | None => cat_shape (Some (d :: tl)) ss'
           | Some [] => Raise RuntimeError
           | Some (d0 :: tl0) =>
               if shape_eqb tl tl0
               then cat_shape (Some ((d0 + d)%nat :: tl0)) ss'
               else Raise RuntimeError
           end
  end.

Definition cat {A} (ts : list (tensor A)) : result (tensor A) :=
  match ts with
  | [] => Raise RuntimeError
  | _ =>
      rbind (cat_shape None (map (@shape A) ts))
            (fun s => Ok (mkTensor s (concat (map (@data A) ts))))
  end.

(** Rows along the last dimension: [n] consecutive blocks of [d]
    elements. *)
Fixpoint rows_of {A} (n d : nat) (l : list A) : list (list A) :=
  match n with
  | O => []
  | S n' => firstn d l :: rows_of n' d (skipn d l)
  end.

(** Index of the first maximal element of a row. *)
Fixpoint argmax_from (best : R) (besti i : nat) (l : list R) : nat :=
  match l with
  | [] => besti
  | x :: l' =>
      if Rlt_dec best x then argmax_from x i (S i) l'
      else argmax_from best besti (S i) l'
  end.

Definition argmax_row (l : list R) : nat :=
  match l with
  | [] => O
  | x :: l' => argmax_from x 0 1 l'
  end.

(** [torch.argmax(t, dim=-1)]: the last dimension is reduced; the
    reduction raises when that dimension is empty.  On a
    zero-dimensional tensor the result is index 0. *)
Definition argmax_last (t : tensor R) : result (tensor Z) :=
  match rev (shape t) with
  | [] => Ok (mkTensor [] [0%Z])
  | O :: _ => Raise IndexError
  | S d' :: rinit =>
      let lead := rev rinit in
      Ok (mkTensor lead
            (map (fun row => Z.of_nat (argmax_row row))
                 (rows_of (numel lead) (S d') (data t))))
  end.

(** [torch.sigmoid], elementwise, as the exact function.  The rounded
    sigmoid of a negative number very close to zero can be 0.5; the
    statements that compare a sigmoid with 0.5 keep the logits out of
    that band. *)
Definition sigmoid1 (x : R) : R := (/ (1 + exp (- x)))%R.
Definition sigmoid (t : tensor R) : tensor R := tmap sigmoid1 t.

(** [t.to(dtype=int)] on a float tensor rounds toward zero (for values
    within the range of the integer type). *)
Definition trunc1 (x : R) : Z :=
  if Rle_dec 0 x then Zfloor x else Zceil x.
Definition to_int (t : tensor R) : tensor Z := tmap trunc1 t.

Definition Rsum (l : list R) : R := fold_right Rplus 0%R l.

Definition dot (xs ws : list R) : R :=
  Rsum (map (fun xw => (fst xw * snd xw)%R) (combine xs ws)).

(** [nn.Linear(in_features, out_features)]: [y = x W^T + b] on the last
    dimension, which must have size [in_features]. *)
Record Linear : Type := mkLinear {
  in_features : nat;
  out_features : nat;
  weight : list (list R);
  bias : list R
}.

Definition linear_row (l : Linear) (x : list R) : list R :=
  map (fun j => (dot x (nth j (weight l) []) + nth j (bias l) 0)%R)
      (seq 0 (out_features l)).

Definition apply_Linear (l : Linear) (x : tensor R) : result (tensor R) :=
  match rev (shape x) with
  | [] => Raise RuntimeError
  | d :: rinit =>
      if (d =? in_features l)%nat
      then
        let lead := rev rinit in
        Ok (mkTensor (lead ++ [out_features l])
              (concat (map (linear_row l) (rows_of (numel lead) d (data x)))))
      else Raise RuntimeError
  end.

(** [nn.Dropout(p)]: the identity in evaluation mode; in training mode
    the element at flat index [i] is kept and scaled by [1/(1-p)] when
    the sample [keep i] of the random generator is true, and zeroed
    otherwise. *)
Fixpoint dropout_from (p : R) (keep : nat -> bool) (i : nat) (l : list R)
  : list R :=
  match l with
  | [] => []
  | x :: l' =>
      (if keep i then (x / (1 - p))%R else 0%R)
        :: dropout_from p keep (S i) l'
  end.

Definition Dropout (p : R) (training : bool) (keep : nat -> bool)
  (x : tensor R) : tensor R :=
  if training then mkTensor (shape x) (dropout_from p keep 0 (data x))
  else x.

(** [nn.BCEWithLogitsLoss()(input, target)], mean reduction: the sizes
    must be equal, else [ValueError].  On an empty batch torch returns
    [nan]; the quotient by zero of [mean] stands for it, and no statement
    relies on its value. *)
Definition bce1 (x t : R) : R :=
  (- (t * ln (sigmoid1 x) + (1 - t) * ln (1 - sigmoid1 x)))%R.

Definition mean (l : list R) : R := (Rsum l / INR (length l))%R.

Definition BCEWithLogitsLoss (input target : tensor R) : result R :=
  if shape_eqb (shape target) (shape input)
  then Ok (mean (map (fun xt => bce1 (fst xt) (snd xt))
                     (combine (data input) (data target))))
  else Raise ValueError.

End torch.

Import torch.

(** ** numpy: the array operations of the epoch-end hooks *)

Module numpy.

(** [a >= 0.5] on a float array. *)
Definition ge_half1 (x : R) : bool :=
  if Rle_dec (1 / 2) x then true else false.
Definition ge_half (t : tensor R) : tensor bool := tmap ge_half1 t.

(** [a.reshape(-1)]: the elements as a one-dimensional array. *)
Definition reshape_flat {A} (t : tensor A) : list A := data t.

(** [y != v] on an integer array. *)
Definition ne (y : list Z) (v : Z) : list bool :=
  map (fun x => negb (x =? v)%Z) y.

(** [a[mask]] with a boolean mask: the elements whose mask entry is
    true; [IndexError] unless the mask has the length of the array. *)
Fixpoint bool_index {A} (a : list A) (mask : list bool) : result (list A) :=
  match a, mask with
  | [], [] => Ok []
  | x :: a', b :: mask' =>
      rbind (bool_index a' mask')
            (fun r => Ok (if b then x :: r else r))
  | _, _ => Raise IndexError
  end.

End numpy.

(** ** sklearn.metrics on integer label arrays *)

Module metrics.

(** A metric value: an exact fraction in lowest terms, or [nan]. *)
Inductive score : Type :=
| Score (q : Q)
| NaN.

Definition frac (n d : nat) : Q :=
  Qred (Z.of_nat n # Pos.of_nat d).

(** Label arrays must be one-dimensional or a single column. *)
Definition column_or_1d {A} (t : tensor A) : result (list A) :=
  match shape t with
  | [_] => Ok (data t)
  | [_; 1%nat] => Ok (data t)
  | _ => Raise ValueError
  end.

Definition count_if {A} (f : A -> bool) (l : list A) : nat :=
  length (filter f l).

Definition agree (p : Z * Z) : bool := (fst p =? snd p)%Z.

(** [accuracy_score(a, b)]: the fraction of positions where the two
    arrays agree; [ValueError] on arrays of different lengths, [nan]
    on empty ones. *)
Definition accuracy_value (a b : list Z) : score :=
  match a with
  | [] => NaN
  | _ => Score (frac (count_if agree (combine a b)) (length a))
  end.

Definition accuracy_score (a b : list Z) : result score :=
  if (length a =? length b)%nat
  then Ok (accuracy_value a b)
  else Raise ValueError.

Definition unique_labels (a b : list Z) : list Z :=
  nodup Z.eq_dec (a ++ b).

Definition is_label (l : Z) (x : Z) : bool := (x =? l)%Z.

(** Per-label F1: [2 tp / (|true = l| + |pred = l|)], and 0 when the
    label occurs in neither array. *)
Definition f1_label (l : Z) (y_true y_pred : list Z) : Q :=
  let tp := count_if (fun p => is_label l (fst p) && is_label l (snd p))
                     (combine y_true y_pred) in
  let denom := (count_if (is_label l) y_true
                + count_if (is_label l) y_pred)%nat in
  match denom with
  | O => 0%Q
  | _ => frac (2 * tp) denom
  end.

(** [f1_score(a, b)] with the defaults [average="binary"],
    [pos_label=1]: [ValueError] when more than two labels occur, or
    when two labels occur and 1 is not one of them. *)
Definition f1_score (y_true y_pred : list Z) : result score :=
  if (length y_true =? length y_pred)%nat
  then
    let present := unique_labels y_true y_pred in
    if (2 <? length present)%nat then Raise ValueError
    else if existsb (is_label 1) present || (length present <? 2)%nat
         then Ok (Score (f1_label 1 y_true y_pred))
         else Raise ValueError
  else Raise ValueError.

Definition Qsum (l : list Q) : Q := fold_right Qplus 0%Q l.

(** [f1_score(a, b, average="weighted")]: the per-label F1 averaged
    with the number of true instances of each label as weight.  Without
    any true instance the value is the zero-division value of the
    library, 0 here (later versions of the library return [nan]); no
    statement relies on it. *)
Definition f1_weighted_value (y_true y_pred : list Z) : score :=
  match y_true with
  | [] => Score 0%Q
  | _ =>
      let total := length y_true in
      Score (Qred (Qsum
        (map (fun l =>
                (f1_label l y_true y_pred
                 * frac (count_if (is_label l) y_true) total)%Q)
             (unique_labels y_true y_pred))))
  end.

Definition f1_score_weighted (y_true y_pred : list Z) : result score :=
  if (length y_true =? length y_pred)%nat
  then Ok (f1_weighted_value y_true y_pred)
  else Raise ValueError.

End metrics.

Import numpy.
Open Scope string_scope.
Open Scope py_scope.

(** ** The Lightning side: hyperparameters, logging, optimizers *)

(** [args], saved by [save_hyperparameters] and read as [self.hparams]. *)
Record hyperparameters : Type := mkHparams {
  base_path : string;
  base_lr : R;
  linear_lr : R;
  num_labels : nat
}.

Inductive log_value : Type :=
| LogLoss (r : R)
| LogScore (s : metrics.score).

(** One call of [self.log(name, value, on_step=, on_epoch=, prog_bar=,
    logger=)]; [None] is an argument left at its default. *)
Record log_entry : Type := mkLog {
  log_name : string;
  log_val : log_value;
  on_step : option bool;
  on_epoch : option bool;
  prog_bar : bool;
  logger : bool
}.

(** A line written by [print] in an epoch-end hook. *)
Record printed : Type := mkPrinted {
  print_tag : string;
  print_acc : metrics.score;
  print_f1 : metrics.score
}.

Definition nn_Parameter : Type := tensor R.

(** The object state of a [pl.LightningModule] subclass over the network
    [Net]: the saved hyperparameters, the network, the train/eval mode
    flag, and the two output channels (logging sink, standard output). *)
Record LightningModule (Net : Type) : Type := mkModule {
  hparams : hyperparameters;
  model : Net;
  training : bool;
  logged : list log_entry;
  stdout : list printed
}.

Definition log {Net} (name : string) (v : log_value)
  (on_step on_epoch : option bool) (prog_bar logger : bool)
  : M (LightningModule Net) unit :=
  modify (fun s =>
    mkModule (hparams s) (model s) (training s)
      (logged s ++ [mkLog name v on_step on_epoch prog_bar logger])
      (stdout s)).

(** [self.log(name, value)] with every flag at its default. *)
Definition log_default {Net} (name : string) (v : log_value)
  : M (LightningModule Net) unit :=
  log name v None None false true.

Definition print {Net} (tag : string) (acc f1 : metrics.score)
  : M (LightningModule Net) unit :=
  modify (fun s =>
    mkModule (hparams s) (model s) (training s) (logged s)
      (stdout s ++ [mkPrinted tag acc f1])).

(** [AdamW(grouped_parameters, lr=...)]: the parameter groups with their
    own learning rates, and the default learning rate. *)
Record param_group : Type := mkGroup {
  params : list nn_Parameter;
  lr : R
}.

Record optimizer : Type := mkOptimizer {
  param_groups : list param_group;
  default_lr : R
}.

Definition AdamW (groups : list param_group) (lr0 : R) : optimizer :=
  mkOptimizer groups lr0.

(** The dict a step hook returns; a key the dict lacks is [None]. *)
Record step_output (L : Type) : Type := mkOut {
  out_loss : option R;
  out_logits : tensor R;
  out_true_preds : tensor L
}.

Definition keys {L} (o : step_output L) : list string :=
  match out_loss o with
  | Some _ => ["loss"; "logits"; "true_preds"]
  | None => ["logits"; "true_preds"]
  end.

(** Modelled from the spec: the epoch loop of the external trainer, which
    is not part of the repository.  Per epoch it calls the step hook once
    per batch, in arrival order, appends each returned dict to the epoch
    buffer, and hands the buffer to the epoch-end hook.  An exception of
    a step ends the loop. *)
Fixpoint run_steps {St B O} (step : B -> nat -> M St O) (batches : list B)
  (batch_idx : nat) : M St (list O) :=
  match batches with
  | [] => ret []
  | b :: bs =>
      o <- step b batch_idx ;;
      os <- run_steps step bs (S batch_idx) ;;
      ret (o :: os)
  end.

Definition run_epoch {St B O} (step : B -> nat -> M St O)
  (epoch_end : list O -> M St unit) (batches : list B) : M St unit :=
  outs <- run_steps step batches 0 ;;
  epoch_end outs.

(** ** [class MainModel(nn.Module)] *)

(** A pretrained encoder as [AutoModel.from_pretrained] returns it: its
    forward pass, giving the pair (sequence output, pooled output), and
    its named parameters. *)
Record AutoModel : Type := mkAutoModel {
  am_forward :
    tensor Z -> tensor Z -> option (tensor Z) -> result (tensor R * tensor R);
  am_named_parameters : list (string * nn_Parameter)
}.

Definition Linear_parameters (l : Linear) : list nn_Parameter :=
  [ mkTensor [out_features l; in_features l] (concat (weight l));
    mkTensor [out_features l] (bias l) ].

Module MainModel.

Record t : Type := mk {
  base : AutoModel;
  dropout : R;
  linear : Linear
}.

Section Init.
(** The model repository, and the initial values drawn for the
    projection layer. *)
Variable from_pretrained : string -> AutoModel.
Variable weight0 : list (list R).
Variable bias0 : list R.

Definition __init__ (args : hyperparameters) : t :=
  mk (from_pretrained (base_path args))
     (3 / 10)%R
     (mkLinear 768 1 weight0 bias0).
End Init.

Definition forward (self : t) (training : bool) (keep : nat -> bool)
  (ids_seq attn_masks : tensor Z) (token_type_ids : option (tensor Z))
  : result (tensor R) :=
  rbind (am_forward (base self) ids_seq attn_masks token_type_ids)
    (fun base_out =>
       let max_out := Dropout (dropout self) training keep (snd base_out) in
       apply_Linear (linear self) max_out).

End MainModel.

(** ** [class SequenceClassicationLightningModule] *)

Module SequenceClassicationLightningModule.

Definition module : Type := LightningModule MainModel.t.

Record batch : Type := mkBatch {
  ids_seq : tensor Z;
  attn_masks : tensor Z;
  target : tensor R
}.

Section Init.
Variable from_pretrained : string -> AutoModel.
Variable weight0 : list (list R).
Variable bias0 : list R.

Definition __init__ (args : hyperparameters) : module :=
  mkModule args (MainModel.__init__ from_pretrained weight0 bias0 args)
           true [] [].
End Init.

Definition loss (logits targets : tensor R) : result R :=
  BCEWithLogitsLoss logits targets.

(** [keep] is the sample the dropout layer draws during the call. *)
Definition shared_step (b : batch) (keep : nat -> bool)
  : M module (tensor R * R) :=
  net <- gets (@model _) ;;
  mode <- gets (@training _) ;;
  out <- lift (MainModel.forward net mode keep (ids_seq b) (attn_masks b)
                 None) ;;
  let logits := squeeze out in
  l <- lift (loss logits (target b)) ;;
  ret (logits, l).

Definition training_step (b : batch) (batch_idx : nat) (keep : nat -> bool)
  : M module (step_output R) :=
  r <- shared_step b keep ;;
  log "train_loss" (LogLoss (snd r)) (Some true) (Some true) false true ;;;
  ret (mkOut (Some (snd r)) (fst r) (target b)).

Definition validation_step (b : batch) (batch_idx : nat)
  (keep : nat -> bool) : M module (step_output R) :=
  r <- shared_step b keep ;;
  log "valid_loss" (LogLoss (snd r)) (Some false) (Some true) false true ;;;
  ret (mkOut None (fst r) (target b)).

Definition configure_optimizers : M module optimizer :=
  net <- gets (@model _) ;;
  hp <- gets (@hparams _) ;;
  let grouped_parameters :=
    [ mkGroup (map snd (am_named_parameters (MainModel.base net)))
              (base_lr hp);
      mkGroup (Linear_parameters (MainModel.linear net)) (linear_lr hp) ] in
  ret (AdamW grouped_parameters (base_lr hp)).

(** The two arrays the epoch-end hooks build from the buffer. *)
Definition epoch_arrays (outs : list (step_output R))
  : result (list Z * list Z) :=
  rbind (cat (map (@out_logits R) outs)) (fun logits =>
  let y_pred := ge_half (sigmoid logits) in
  rbind (cat (map (@out_true_preds R) outs)) (fun targets =>
  let y_true := to_int targets in
  rbind (metrics.column_or_1d y_pred) (fun p =>
  rbind (metrics.column_or_1d y_true) (fun t =>
  Ok (map Z.b2z p, t))))).

Definition epoch_end (acc_name f1_name : string)
  (outs : list (step_output R)) : M module unit :=
  yy <- lift (epoch_arrays outs) ;;
  acc <- lift (metrics.accuracy_score (fst yy) (snd yy)) ;;
  f1 <- lift (metrics.f1_score (fst yy) (snd yy)) ;;
  log_default acc_name (LogScore acc) ;;;
  log_default f1_name (LogScore f1).

Definition training_epoch_end (training_step_outputs : list (step_output R))
  : M module unit :=
  epoch_end "train_acc" "train_f1" training_step_outputs.

Definition validation_epoch_end
  (validation_step_outputs : list (step_output R)) : M module unit :=
  epoch_end "val_acc" "val_f1" validation_step_outputs.

End SequenceClassicationLightningModule.

(** ** What the token and the Auto module share *)

(** A tokenized batch for the pretrained task models; [labels] holds the
    sentinel [-100] at positions excluded from loss and metrics. *)
Record batch : Type := mkBatch {
  input_ids : tensor Z;
  attention_mask : tensor Z;
  labels : tensor Z
}.

(** The output of a pretrained task model called on a labelled batch. *)
Record model_output : Type := mkOutput {
  loss : R;
  logits : tensor R
}.

(** A pretrained task model (with its own head and loss) as
    [AutoModelFor...from_pretrained] returns it. *)
Record PreTrainedModel : Type := mkPreTrained {
  pm_forward : batch -> result model_output;
  named_parameters : list (string * nn_Parameter)
}.

(** [sub in s] on Python strings. *)
Fixpoint str_in (sub s : string) : bool :=
  if prefix sub s then true
  else match s with
       | EmptyString => false
       | String _ s' => str_in sub s'
       end.

Definition is_backbone (n : string) : bool := negb (str_in "classifier" n).

(** [torch.cat([torch.argmax(out["logits"], dim=-1).view(-1) for out in
    outs]).to("cpu").detach().numpy().reshape(-1)] *)
Definition gather_pred (outs : list (step_output Z)) : result (list Z) :=
  rbind (rmap (fun out => rbind (argmax_last (out_logits out))
                                (fun a => Ok (view_flat a))) outs)
    (fun ts => rbind (cat ts) (fun t => Ok (reshape_flat t))).

(** [torch.cat([out["true_preds"].view(-1) for out in outs]).to("cpu",
    dtype=int).detach().numpy().reshape(-1)] *)
Definition gather_true (outs : list (step_output Z)) : result (list Z) :=
  rbind (cat (map (fun out => view_flat (out_true_preds out)) outs))
    (fun t => Ok (reshape_flat t)).

(** The grouping both modules pass to the optimizer. *)
Definition grouped_parameters (ps : list (string * nn_Parameter))
  (hp : hyperparameters) : list param_group :=
  [ mkGroup (map snd (filter (fun np => is_backbone (fst np)) ps))
            (base_lr hp);
    mkGroup (map snd (filter (fun np => negb (is_backbone (fst np))) ps))
            (linear_lr hp) ].

(** ** [class LightningModuleForTokenClassification] *)

Module LightningModuleForTokenClassification.

Definition module : Type := LightningModule PreTrainedModel.

Section Init.
(** [AutoModelForTokenClassification.from_pretrained(path,
    num_labels=...)] *)
Variable from_pretrained : string -> nat -> PreTrainedModel.

Definition __init__ (args : hyperparameters) : module :=
  mkModule args (from_pretrained (base_path args) 2) true [] [].
End Init.

Definition call_model (b : batch) : M module model_output :=
  net <- gets (@model _) ;;
  lift (pm_forward net b).

Definition training_step (b : batch) (batch_idx : nat)
  : M module (step_output Z) :=
  output <- call_model b ;;
  log "train_loss" (LogLoss (loss output)) (Some true) (Some true)
      true true ;;;
  ret (mkOut (Some (loss output)) (logits output) (labels b)).

Definition validation_step (b : batch) (batch_idx : nat)
  : M module (step_output Z) :=
  output <- call_model b ;;
  log "valid_loss" (LogLoss (loss output)) (Some false) (Some true)
      true true ;;;
  ret (mkOut None (logits output) (labels b)).

Definition test_step (b : batch) (batch_idx : nat)
  : M module (step_output Z) :=
  output <- call_model b ;;
  log "test_loss" (LogLoss (loss output)) (Some false) (Some true)
      true true ;;;
  ret (mkOut None (logits output) (labels b)).

Definition configure_optimizers : M module optimizer :=
  net <- gets (@model _) ;;
  hp <- gets (@hparams _) ;;
  let params := named_parameters net in
  ret (AdamW (grouped_parameters params hp) (base_lr hp)).

Definition training_epoch_end (training_step_outputs : list (step_output Z))
  : M module unit :=
  y_pred <- lift (gather_pred training_step_outputs) ;;
  y_true <- lift (gather_true training_step_outputs) ;;
  let mask := ne y_true (-100) in
  y_true' <- lift (bool_index y_true mask) ;;
  y_pred' <- lift (bool_index y_pred mask) ;;
  acc <- lift (metrics.accuracy_score y_true' y_pred') ;;
  f1 <- lift (metrics.f1_score_weighted y_true' y_pred') ;;
  log_default "train_acc" (LogScore acc) ;;;
  log_default "train_f1" (LogScore f1).

(** The mask is computed and not used. *)
Definition validation_epoch_end
  (validation_step_outputs : list (step_output Z)) : M module unit :=
  y_pred <- lift (gather_pred validation_step_outputs) ;;
  y_true <- lift (gather_true validation_step_outputs) ;;
  let mask := ne y_true (-100) in
  acc <- lift (metrics.accuracy_score y_true y_pred) ;;
  f1 <- lift (metrics.f1_score_weighted y_true y_pred) ;;
  log_default "val_acc" (LogScore acc) ;;;
  log_default "val_f1" (LogScore f1).

Definition test_epoch_end (test_step_outputs : list (step_output Z))
  : M module unit :=
  y_pred <- lift (gather_pred test_step_outputs) ;;
  y_true <- lift (gather_true test_step_outputs) ;;
  let mask := ne y_true (-100) in
  acc <- lift (metrics.accuracy_score y_true y_pred) ;;
  f1 <- lift (metrics.f1_score_weighted y_true y_pred) ;;
  log_default "test_acc" (LogScore acc) ;;;
  log_default "test_f1" (LogScore f1).

End LightningModuleForTokenClassification.

(** ** [class LightningModuleForAutoModels] *)

Module LightningModuleForAutoModels.

Definition module : Type := LightningModule PreTrainedModel.

Section Init.
(** [AutoModelForSequenceClassification.from_pretrained(path,
    num_labels=...)] *)
Variable from_pretrained : string -> nat -> PreTrainedModel.

Definition __init__ (args : hyperparameters) : module :=
  mkModule args (from_pretrained (base_path args) (num_labels args))
           true [] [].
End Init.

(** [torch.nn.CrossEntropyLoss(weight=w)(logits, targets)] with class
    indices as targets, mean reduction and [ignore_index=-100]:
    [sum_n w[y_n] * (-log softmax(x_n)[y_n]) / sum_n w[y_n]] over the
    samples that are not ignored.  The model covers logits of shape
    [(N, C)] with targets of shape [(N,)] and the unbatched shapes
    [(C,)] and [()]; the layouts with further dimensions are left
    out.  When every target is ignored torch returns [nan]; the quotient
    by zero stands for it, and no statement relies on its value. *)
Definition log_softmax_at (x : list R) (y : nat) : R :=
  (nth y x 0 - ln (Rsum (map exp x)))%R.

Definition ignored (y : Z) : bool := (y =? -100)%Z.

Definition in_range (C : nat) (y : Z) : bool :=
  ignored y || ((0 <=? y)%Z && (y <? Z.of_nat C)%Z).

Definition weighted_nll (w : list R) (xy : list R * Z) : R :=
  (nth (Z.to_nat (snd xy)) w 0
   * - log_softmax_at (fst xy) (Z.to_nat (snd xy)))%R.

Definition CrossEntropyLoss (w : list R) (input : tensor R)
  (target : tensor Z) : result R :=
  let run (N C : nat) :=
    if negb (C =? length w)%nat then Raise RuntimeError
    else if negb (forallb (in_range C) (data target))
    then Raise IndexError
    else
      let kept := filter (fun xy => negb (ignored (snd xy)))
                    (combine (rows_of N C (data input)) (data target)) in
      Ok (Rsum (map (weighted_nll w) kept)
          / Rsum (map (fun xy => nth (Z.to_nat (snd xy)) w 0) kept))%R in
  match shape input, shape target with
  | [N; C], [N'] => if (N =? N')%nat then run N C else Raise ValueError
  | [C], [] => run 1%nat C
  | _, _ => Raise RuntimeError
  end.

Definition loss_fn (logits : tensor R) (targets : tensor Z) : result R :=
  let ce := CrossEntropyLoss [(3 / 10)%R; 1%R; (1 / 10)%R] in
  ce logits targets.

Definition call_model (b : batch) : M module model_output :=
  net <- gets (@model _) ;;
  lift (pm_forward net b).

Definition training_step (b : batch) (batch_idx : nat)
  : M module (step_output Z) :=
  output <- call_model b ;;
  log "train_loss" (LogLoss (loss output)) (Some true) (Some true)
      true true ;;;
  ret (mkOut (Some (loss output)) (logits output) (labels b)).

Definition validation_step (b : batch) (batch_idx : nat)
  : M module (step_output Z) :=
  output <- call_model b ;;
  log "valid_loss" (LogLoss (loss output)) (Some false) (Some true)
      true true ;;;
  ret (mkOut None (logits output) (labels b)).

Definition test_step (b : batch) (batch_idx : nat)
  : M module (step_output Z) :=
  output <- call_model b ;;
  log "test_loss" (LogLoss (loss output)) (Some false) (Some true)
      true true ;;;
  ret (mkOut None (logits output) (labels b)).

Definition configure_optimizers : M module optimizer :=
  net <- gets (@model _) ;;
  hp <- gets (@hparams _) ;;
  let params := named_parameters net in
  ret (AdamW (grouped_parameters params hp) (base_lr hp)).

Definition training_epoch_end (training_step_outputs : list (step_output Z))
  : M module unit :=
  y_pred <- lift (gather_pred training_step_outputs) ;;
  y_true <- lift (gather_true training_step_outputs) ;;
  let mask := ne y_true (-100) in
  y_true' <- lift (bool_index y_true mask) ;;
  y_pred' <- lift (bool_index y_pred mask) ;;
  acc <- lift (metrics.accuracy_score y_true' y_pred') ;;
  f1 <- lift (metrics.f1_score_weighted y_true' y_pred') ;;
  log_default "train_acc" (LogScore acc) ;;;
  log_default "train_f1" (LogScore f1).

Definition validation_epoch_end
  (validation_step_outputs : list (step_output Z)) : M module unit :=
  y_pred <- lift (gather_pred validation_step_outputs) ;;
  y_true <- lift (gather_true validation_step_outputs) ;;
  let mask := ne y_true (-100) in
  y_true' <- lift (bool_index y_true mask) ;;
  y_pred' <- lift (bool_index y_pred mask) ;;
  acc <- lift (metrics.accuracy_score y_true' y_pred') ;;
  f1 <- lift (metrics.f1_score_weighted y_true' y_pred') ;;
  print "val" acc f1 ;;;
  log_default "val_acc" (LogScore acc) ;;;
  log_default "val_f1" (LogScore f1).

Definition test_epoch_end (test_step_outputs : list (step_output Z))
  : M module unit :=
  y_pred <- lift (gather_pred test_step_outputs) ;;
  y_true <- lift (gather_true test_step_outputs) ;;
  let mask := ne y_true (-100) in
  y_true' <- lift (bool_index y_true mask) ;;
  y_pred' <- lift (bool_index y_pred mask) ;;
  acc <- lift (metrics.accuracy_score y_true' y_pred') ;;
  f1 <- lift (metrics.f1_score_weighted y_true' y_pred') ;;
  print "test" acc f1 ;;;
  log_default "test_acc" (LogScore acc) ;;;
  log_default "test_f1" (LogScore f1).

End LightningModuleForAutoModels.

(** ** Vocabulary of the statements *)

(** The module object after the given entries reached the logging sink. *)
Definition with_logs {Net} (s : LightningModule Net) (es : list log_entry)
  : LightningModule Net :=
  mkModule (hparams s) (model s) (training s) (logged s ++ es) (stdout s).

Definition with_print {Net} (s : LightningModule Net) (ps : list printed)
  : LightningModule Net :=
  mkModule (hparams s) (model s) (training s) (logged s) (stdout s ++ ps).

(** The entry [self.log(name, score)] leaves in the sink. *)
Definition metric_entry (name : string) (sc : metrics.score) : log_entry :=
  mkLog name (LogScore sc) None None false true.

(** The (true label, prediction) pairs at the positions whose true label
    is not the sentinel. *)
Definition kept_pairs (y_true y_pred : list Z) : list (Z * Z) :=
  filter (fun tp => negb (fst tp =? -100)%Z) (combine y_true y_pred).

(** One buffered batch with true labels [[1, -100, 0]] and logits whose
    per-token argmax is [[1, 0, 1]]. *)
Definition token_scenario : list (step_output Z) :=
  [ mkOut (Some 0%R)
          (mkTensor [1; 3; 2]%nat [0; 1; 1; 0; 0; 1]%R)
          (mkTensor [1; 3]%nat [1; -100; 0]%Z) ].

Definition hparams0 : hyperparameters :=
  mkHparams "bert-base-uncased" (1 / 100000)%R (1 / 1000)%R 3.

(** A task model that answers every batch with constant logits, one row
    of three classes. *)
Definition constant_net : PreTrainedModel :=
  mkPreTrained
    (fun _ => Ok (mkOutput 0%R (mkTensor [1; 3]%nat [0; 1; 0]%R)))
    [ ("bert.embeddings.weight", mkTensor [1]%nat [0%R]);
      ("classifier.weight", mkTensor [1]%nat [1%R]);
      ("classifier.bias", mkTensor [1]%nat [2%R]) ].

Definition module0 : LightningModule PreTrainedModel :=
  mkModule hparams0 constant_net true [] [].

(** One buffered batch of the Auto module: three samples over three
    classes with true labels [1, -100, 0] and argmax predictions
    [1, 0, 1]. *)
Definition auto_scenario : list (step_output Z) :=
  [ mkOut (Some 0%R)
          (mkTensor [3; 3]%nat [0; 1; 0; 1; 0; 0; 0; 1; 0]%R)
          (mkTensor [3]%nat [1; -100; 0]%Z) ].

(** The name holds the substring "classifier". *)
Definition contains_classifier (n : string) : Prop :=
  exists pre post : string, n = (pre ++ "classifier" ++ post)%string.

(** The probability the softmax of a row of logits gives to class [y]. *)
Definition softmax_at (x : list R) (y : nat) : R :=
  (exp (nth y x 0) / Rsum (map exp x))%R.

(** A batch of one sample over three classes, and its target. *)
Definition one_sample (x : list R) : tensor R := mkTensor [1; 3]%nat x.
Definition one_target (y : Z) : tensor Z := mkTensor [1]%nat [y].

(** A class-2 sample with probabilities (3/10, 3/10, 4/10): predicted
    correctly; a class-1 sample with probabilities (5/10, 4/10, 1/10):
    predicted as class 0. Both give probability 4/10 to the true class. *)
Definition class2_logits : list R := [ln 3; ln 3; ln 4]%R.
Definition class1_logits : list R := [ln 5; ln 4; 0]%R.

(** An encoder that answers a batch of [n] sequences (the first
    dimension of the ids) with an all-zero pooled output of shape
    [(n, 768)]. *)
Definition zero_encoder : AutoModel :=
  mkAutoModel
    (fun ids _ _ =>
       let n := hd 0%nat (shape ids) in
       Ok (mkTensor [n; 4; 768]%nat [],
           mkTensor [n; 768]%nat (repeat 0%R (n * 768))))
    [("embeddings.weight", mkTensor [1]%nat [0%R])].

Definition binary_module0 : SequenceClassicationLightningModule.module :=
  SequenceClassicationLightningModule.__init__
    (fun _ => zero_encoder) [repeat 0%R 768] [0%R] hparams0.

(** A binary batch of [n] sequences of four tokens with the given
    targets. *)
Definition binary_batch (n : nat) (targets : list R)
  : SequenceClassicationLightningModule.batch :=
  SequenceClassicationLightningModule.mkBatch
    (mkTensor [n; 4]%nat (repeat 0%Z (n * 4)))
    (mkTensor [n; 4]%nat (repeat 1%Z (n * 4)))
    (mkTensor [n] targets).

Definition keep_all : nat -> bool := fun _ => true.

(** The buffered logits and targets of an epoch, in batch order. *)
Definition epoch_logits (outs : list (step_output R)) : list R :=
  concat (map (fun o => data (out_logits o)) outs).

Definition epoch_targets (outs : list (step_output R)) : list R :=
  concat (map (fun o => data (out_true_preds o)) outs).

(** Sigmoid, then the 0.5 threshold, as 0/1 predictions. *)
Definition threshold_predictions (xs : list R) : list Z :=
  map (fun x => Z.b2z (ge_half1 (sigmoid1 x))) xs.

(** What the binary step buffers for a batch of two or more samples:
    one-dimensional logits and targets of the same length. *)
Definition buffered_1d (o : step_output R) : Prop :=
  shape (out_logits o) = [length (data (out_logits o))]
  /\ shape (out_true_preds o) = [length (data (out_true_preds o))]
  /\ length (data (out_logits o)) = length (data (out_true_preds o)).



(** ** The lifecycle as the trainer drives it *)

(** A call of a hook of the binary module, with its arguments. *)
Inductive binary_hook : Type :=
| BinaryTrainingStep (b : SequenceClassicationLightningModule.batch)
    (batch_idx : nat) (keep : nat -> bool)
| BinaryValidationStep (b : SequenceClassicationLightningModule.batch)
    (batch_idx : nat) (keep : nat -> bool)
| BinaryConfigureOptimizers
| BinaryTrainingEpochEnd (outs : list (step_output R))
| BinaryValidationEpochEnd (outs : list (step_output R)).

(** A call of a hook of the token or of the Auto module. *)
Inductive task_hook : Type :=
| TrainingStep (b : batch) (batch_idx : nat)
| ValidationStep (b : batch) (batch_idx : nat)
| TestStep (b : batch) (batch_idx : nat)
| ConfigureOptimizers
| TrainingEpochEnd (outs : list (step_output Z))
| ValidationEpochEnd (outs : list (step_output Z))
| TestEpochEnd (outs : list (step_output Z)).

(** The module object after a call, whether it returned or raised. *)
Definition after {St A} (m : M St A) (s : St) : St := snd (m s).

Definition call_binary (s : SequenceClassicationLightningModule.module)
  (h : binary_hook) : SequenceClassicationLightningModule.module :=
  match h with
  | BinaryTrainingStep b i keep =>
      after (SequenceClassicationLightningModule.training_step b i keep) s
  | BinaryValidationStep b i keep =>
      after (SequenceClassicationLightningModule.validation_step b i keep) s
  | BinaryConfigureOptimizers =>
      after SequenceClassicationLightningModule.configure_optimizers s
  | BinaryTrainingEpochEnd outs =>
      after (SequenceClassicationLightningModule.training_epoch_end outs) s
  | BinaryValidationEpochEnd outs =>
      after (SequenceClassicationLightningModule.validation_epoch_end outs) s
  end.

Definition call_token (s : LightningModuleForTokenClassification.module)
  (h : task_hook) : LightningModuleForTokenClassification.module :=
  match h with
  | TrainingStep b i =>
      after (LightningModuleForTokenClassification.training_step b i) s
  | ValidationStep b i =>
      after (LightningModuleForTokenClassification.validation_step b i) s
  | TestStep b i =>
      after (LightningModuleForTokenClassification.test_step b i) s
  | ConfigureOptimizers =>
      after LightningModuleForTokenClassification.configure_optimizers s
  | TrainingEpochEnd outs =>
      after (LightningModuleForTokenClassification.training_epoch_end outs) s
  | ValidationEpochEnd outs =>
      after (LightningModuleForTokenClassification.validation_epoch_end outs)
            s
  | TestEpochEnd outs =>
      after (LightningModuleForTokenClassification.test_epoch_end outs) s
  end.

Definition call_auto (s : LightningModuleForAutoModels.module)
  (h : task_hook) : LightningModuleForAutoModels.module :=
  match h with
  | TrainingStep b i =>
      after (LightningModuleForAutoModels.training_step b i) s
  | ValidationStep b i =>
      after (LightningModuleForAutoModels.validation_step b i) s
  | TestStep b i =>
      after (LightningModuleForAutoModels.test_step b i) s
  | ConfigureOptimizers =>
      after LightningModuleForAutoModels.configure_optimizers s
  | TrainingEpochEnd outs =>
      after (LightningModuleForAutoModels.training_epoch_end outs) s
  | ValidationEpochEnd outs =>
      after (LightningModuleForAutoModels.validation_epoch_end outs) s
  | TestEpochEnd outs =>
      after (LightningModuleForAutoModels.test_epoch_end outs) s
  end.

(** A computation that leaves the hyperparameters, the network and the
    mode flag of the module object as they were. *)
Definition frame {Net A} (m : M (LightningModule Net) A) : Prop :=
  forall s,
    hparams (snd (m s)) = hparams s
    /\ model (snd (m s)) = model s
    /\ training (snd (m s)) = training s.

(** The dict a step hook of the token or Auto module returns for a batch
    the model answered with [output]; only the training hook stores the
    loss. *)
Definition buffered_entry (with_loss : bool) (output : model_output)
  (b : batch) : step_output Z :=
  mkOut (if with_loss then Some (loss output) else None)
        (logits output) (labels b).

(** The entry [self.log(name, loss, on_step=, on_epoch=, prog_bar=,
    logger=True)] leaves in the sink. *)
Definition loss_entry (name : string) (l : R) (on_step on_epoch prog_bar : bool)
  : log_entry :=
  mkLog name (LogLoss l) (Some on_step) (Some on_epoch) prog_bar true.

(** A batch of one labelled sequence. *)
Definition batch0 : batch :=
  mkBatch (mkTensor [1; 4]%nat [101; 7; 8; 102]%Z)
          (mkTensor [1; 4]%nat [1; 1; 1; 1]%Z)
          (mkTensor [1]%nat [1%Z]).

(** ** Further sample objects *)

(** A task model whose forward pass raises. *)
Definition failing_net : PreTrainedModel :=
  mkPreTrained (fun _ => Raise RuntimeError) [].

Definition failing_module : LightningModule PreTrainedModel :=
  mkModule hparams0 failing_net true [] [].

(** A binary batch of one sequence whose target is a zero-dimensional
    tensor. *)
Definition scalar_target_batch : SequenceClassicationLightningModule.batch :=
  SequenceClassicationLightningModule.mkBatch
    (mkTensor [1; 4]%nat (repeat 0%Z 4))
    (mkTensor [1; 4]%nat (repeat 1%Z 4))
    (mkTensor [] [1%R]).



(** A buffered batch whose predictions and labels differ in number: two
    rows of logits against three labels. *)
Definition mismatched_scenario : list (step_output Z) :=
  [ mkOut (Some 0%R)
          (mkTensor [2; 2]%nat [0; 1; 1; 0]%R)
          (mkTensor [3]%nat [1; 0; 1]%Z) ].

(** A buffered batch all of whose labels are the sentinel. *)
Definition all_sentinel_scenario : list (step_output Z) :=
  [ mkOut (Some 0%R)
          (mkTensor [2; 2]%nat [0; 1; 1; 0]%R)
          (mkTensor [2]%nat [-100; -100]%Z) ].

(** A buffered batch without a sentinel label. *)
Definition no_sentinel_scenario : list (step_output Z) :=
  [ mkOut (Some 0%R)
          (mkTensor [2; 2]%nat [0; 1; 1; 0]%R)
          (mkTensor [2]%nat [1; 1]%Z) ].

(** A buffered entry as the token and Auto models produce it: the logits
    carry one more, non-empty dimension (the classes) than the labels,
    and the labels fill their shape. *)
Definition well_shaped (o : step_output Z) : Prop :=
  exists (lead : list nat) (C : nat),
    shape (out_logits o) = (lead ++ [S C])%list
    /\ shape (out_true_preds o) = lead
    /\ length (data (out_true_preds o)) = numel lead.

(** An encoder with hidden size 1024: its pooled output has shape
    [(n, 1024)]. *)
Definition large_encoder : AutoModel :=
  mkAutoModel
    (fun ids _ _ =>
       let n := hd 0%nat (shape ids) in
       Ok (mkTensor [n; 4; 1024]%nat [],
           mkTensor [n; 1024]%nat (repeat 0%R (n * 1024))))
    [("embeddings.weight", mkTensor [1]%nat [0%R])].

(** A target the cross-entropy rejects: neither the sentinel nor a class
    index below [C]. *)
Definition bad_target (C : nat) (y : Z) : Prop :=
  y <> (-100)%Z /\ (y < 0 \/ Z.of_nat C <= y)%Z.

(** A computation whose only effect on the module object is to append
    entries to the logging sink and, when [printing] is allowed, lines
    to the standard output. *)
Definition only_appends {Net A} (printing : bool)
  (m : M (LightningModule Net) A) : Prop :=
  forall s, exists es ps,
    snd (m s) = with_logs (with_print s ps) es
    /\ (printing = false -> ps = []).

(** ** The projection of the binary head, written out *)

(** The element at flat index [k] of the pooled output as the projection
    receives it: as it is in evaluation mode; in training mode scaled by
    1/(1 - 0.3) when the dropout sample keeps it and zero otherwise. *)
Definition after_dropout (training : bool) (keep : nat -> bool)
  (pooled : tensor R) (k : nat) : R :=
  if training
  then (if keep k then nth k (data pooled) 0 / (1 - 3 / 10) else 0)%R
  else nth k (data pooled) 0%R.

(** The logit of row [i]: the sum over the 768 features of the element
    times its weight, plus the bias. *)
Definition projected (w : list R) (b : R) (element : nat -> R) (i : nat)
  : R :=
  (fold_right Rplus 0
     (map (fun j => element (i * 768 + j)%nat * nth j w 0) (seq 0 768))
   + b)%R.

(** An encoder whose pooled output for two sequences is 3 followed by
    zeros in the first row and 5 followed by zeros in the second. *)
Definition two_row_encoder : AutoModel :=
  mkAutoModel
    (fun _ _ _ =>
       Ok (mkTensor [2; 4; 768]%nat [],
           mkTensor [2; 768]%nat
             ((3%R :: repeat 0%R 767) ++ (5%R :: repeat 0%R 767))%list))
    [("embeddings.weight", mkTensor [1]%nat [0%R])].

(** A dropout sample that keeps the element at flat index 0 only. *)
Definition keep_first : nat -> bool := fun k => (k =? 0)%nat.

(** ** The binary prediction, written out *)


(** A logit that is not in the narrow band just below zero, where the
    rounded sigmoid of a negative number can reach 0.5. *)
Definition outside_rounding_band (x : R) : Prop :=
  (0 <= x \/ x <= - (1 / 16))%R.


(** A binary module built over the encoder of hidden size 1024. *)
Definition wide_binary_module : SequenceClassicationLightningModule.module :=
  SequenceClassicationLightningModule.__init__
    (fun _ => large_encoder) [repeat 0%R 768] [0%R] hparams0.

(** * Properties *)

(** ** Thresholded sigmoid *)

Lemma sigmoid1_inv (x : R) :
  ((1 + exp (- x)) * sigmoid1 x = 1)%R /\ (0 < sigmoid1 x)%R.
Proof.
  unfold sigmoid1.
  pose proof (exp_pos (- x)) as He.
  split.
  - apply Rinv_r. lra.
  - apply Rinv_0_lt_compat. lra.
Qed.

Lemma ge_half_sigmoid (x : R) :
  ge_half1 (sigmoid1 x) = if Rle_dec 0 x then true else false.
Proof.
  unfold ge_half1.
  destruct (sigmoid1_inv x) as [Hinv Hpos].
  pose proof (exp_pos (- x)) as He.
  destruct (Rle_dec 0 x) as [Hx | Hx].
  - assert (exp (- x) <= 1)%R as Hle.
    { rewrite <- exp_0.
      destruct (Req_dec x 0) as [-> | Hne].
      + rewrite Ropp_0. lra.
      + left. apply exp_increasing. lra. }
    destruct (Rle_dec (1 / 2) (sigmoid1 x)) as [_ | Hn]; [reflexivity |].
    exfalso. apply Hn. nra.
  - assert (1 < exp (- x))%R as Hlt.
    { rewrite <- exp_0. apply exp_increasing. lra. }
    destruct (Rle_dec (1 / 2) (sigmoid1 x)) as [Hy | _]; [| reflexivity].
    exfalso. nra.
Qed.

Lemma tmap_tmap {A B C} (f : A -> B) (g : B -> C) (t : tensor A) :
  tmap g (tmap f t) = tmap (fun x => g (f x)) t.
Proof. unfold tmap. simpl. now rewrite map_map. Qed.

Lemma cat_nonempty {A} (ts : list (tensor A)) :
  ts <> [] ->
  cat ts = rbind (cat_shape None (map (@shape A) ts))
             (fun s => Ok (mkTensor s (concat (map (@data A) ts)))).
Proof. destruct ts; [congruence | reflexivity]. Qed.

Lemma cat_tmap {A B} (f : A -> B) (ts : list (tensor A)) :
  cat (map (tmap f) ts) = rbind (cat ts) (fun t => Ok (tmap f t)).
Proof.
  destruct ts as [| t ts]; [reflexivity |].
  rewrite (@cat_nonempty B (map (tmap f) (t :: ts))) by discriminate.
  rewrite (@cat_nonempty A (t :: ts)) by discriminate.
  rewrite !map_map.
  replace (map (fun x => shape (tmap f x)) (t :: ts))
    with (map (@shape A) (t :: ts)) by (apply map_ext; reflexivity).
  replace (concat (map (fun x => data (tmap f x)) (t :: ts)))
    with (map f (concat (map (@data A) (t :: ts))))
    by (rewrite concat_map, map_map; reflexivity).
  destruct (cat_shape None (map (@shape A) (t :: ts))) as [s | e];
    reflexivity.
Qed.

(** C5. For every list of per-batch logit tensors, applying sigmoid and
    the 0.5 threshold to each batch and concatenating the boolean arrays
    gives the same outcome (the same boolean array, or the same
    concatenation error) as concatenating the logits first and applying
    sigmoid and the threshold to the result. *)
Theorem threshold_commutes_with_cat (batches : list (tensor R)) :
  cat (map (fun logits => ge_half (sigmoid logits)) batches)
  = rbind (cat batches) (fun logits => Ok (ge_half (sigmoid logits))).
Proof.
  unfold ge_half, sigmoid.
  replace (map (fun logits => tmap ge_half1 (tmap sigmoid1 logits)) batches)
    with (map (tmap (fun x => ge_half1 (sigmoid1 x))) batches)
    by (apply map_ext; intro; now rewrite tmap_tmap).
  rewrite cat_tmap.
  destruct (cat batches) as [t | e]; [| reflexivity].
  cbn [rbind]. now rewrite tmap_tmap.
Qed.

(** ** Boolean-mask indexing and the sentinel filter *)

Lemma bool_index_true (T : list Z) :
  forall P : list Z, length P = length T ->
  bool_index T (ne T (-100)) = Ok (map fst (kept_pairs T P)).
Proof.
  unfold kept_pairs.
  induction T as [| t T IH]; intros [| p P] Hlen; try discriminate.
  - reflexivity.
  - cbn [ne map bool_index combine filter fst].
    change (map (fun x => negb (x =? -100)%Z) T) with (ne T (-100)).
    rewrite (IH P) by (simpl in Hlen; lia).
    cbn [rbind].
    destruct (t =? -100)%Z; reflexivity.
Qed.

Lemma bool_index_pred (T : list Z) :
  forall P : list Z, length P = length T ->
  bool_index P (ne T (-100)) = Ok (map snd (kept_pairs T P)).
Proof.
  unfold kept_pairs.
  induction T as [| t T IH]; intros [| p P] Hlen; try discriminate.
  - reflexivity.
  - cbn [ne map bool_index combine filter fst].
    change (map (fun x => negb (x =? -100)%Z) T) with (ne T (-100)).
    rewrite (IH P) by (simpl in Hlen; lia).
    cbn [rbind].
    destruct (t =? -100)%Z; reflexivity.
Qed.

Lemma kept_pairs_no_sentinel (T P : list Z) :
  Forall (fun t => t <> (-100)%Z) (map fst (kept_pairs T P)).
Proof.
  unfold kept_pairs.
  apply Forall_forall. intros t Hin.
  apply in_map_iff in Hin. destruct Hin as [[t' p] [Heq Hin]].
  apply filter_In in Hin. destruct Hin as [_ Hne].
  simpl in *. subst t'.
  apply negb_true_iff in Hne. now apply Z.eqb_neq in Hne.
Qed.

Lemma kept_pairs_positions (T P : list Z) (t p : Z) :
  In (t, p) (kept_pairs T P) <-> In (t, p) (combine T P) /\ t <> (-100)%Z.
Proof.
  unfold kept_pairs. rewrite filter_In. simpl.
  rewrite negb_true_iff, Z.eqb_neq. reflexivity.
Qed.

Lemma accuracy_score_ok (a b : list Z) :
  length a = length b ->
  metrics.accuracy_score a b = Ok (metrics.accuracy_value a b).
Proof.
  intro H. unfold metrics.accuracy_score.
  now rewrite H, Nat.eqb_refl.
Qed.

Lemma f1_score_weighted_ok (a b : list Z) :
  length a = length b ->
  metrics.f1_score_weighted a b = Ok (metrics.f1_weighted_value a b).
Proof.
  intro H. unfold metrics.f1_score_weighted.
  now rewrite H, Nat.eqb_refl.
Qed.

Lemma kept_pairs_lengths (T P : list Z) :
  length (map fst (kept_pairs T P)) = length (map snd (kept_pairs T P)).
Proof. now rewrite !length_map. Qed.

(** Running a hook whose arrays are known. *)
Ltac run_hook :=
  unfold bind, lift, log_default, log, print, modify, with_logs, with_print,
    metric_entry;
  cbn [fst snd hparams model training logged stdout].

(** Settles the comparisons of real constants a goal branches on. *)
Ltac decide_order :=
  repeat match goal with
         | |- context [Rlt_dec ?a ?b] =>
             destruct (Rlt_dec a b); try (exfalso; lra)
         | |- context [Rle_dec ?a ?b] =>
             destruct (Rle_dec a b); try (exfalso; lra)
         end.

Lemma token_scenario_pred : gather_pred token_scenario = Ok [1; 0; 1]%Z.
Proof.
  unfold gather_pred, token_scenario, argmax_last.
  cbn -[Rlt_dec IZR].
  decide_order.
  reflexivity.
Qed.

Lemma token_scenario_true : gather_true token_scenario = Ok [1; -100; 0]%Z.
Proof. reflexivity. Qed.

(** ** Epoch-end hooks of the token module (C1) *)

(** C1, as amended. In the token-classification module the train-path
    epoch end drops every position whose true label is the sentinel -100
    from the target and the prediction array alike and computes accuracy
    and weighted F1 of what is left, while the validation and the test
    path compute them over the unfiltered arrays. For one batch with true
    labels [[1, -100, 0]] and argmax predictions [[1, 0, 1]] the train-path
    accuracy is 1/2 (weighted F1 1/3) and the validation-path accuracy is
    1/3 (weighted F1 2/9). *)
Theorem token_epoch_end_sentinel :
  (forall (outs : list (step_output Z))
          (s : LightningModuleForTokenClassification.module) (P T : list Z),
      gather_pred outs = Ok P ->
      gather_true outs = Ok T ->
      length P = length T ->
      let kept := kept_pairs T P in
      Forall (fun t => t <> (-100)%Z) (map fst kept)
      /\ (forall t p, In (t, p) kept
                      <-> In (t, p) (combine T P) /\ t <> (-100)%Z)
      /\ LightningModuleForTokenClassification.training_epoch_end outs s
         = (Ok tt,
            with_logs s
              [ metric_entry "train_acc"
                  (metrics.accuracy_value (map fst kept) (map snd kept));
                metric_entry "train_f1"
                  (metrics.f1_weighted_value (map fst kept) (map snd kept)) ])
      /\ LightningModuleForTokenClassification.validation_epoch_end outs s
         = (Ok tt,
            with_logs s
              [ metric_entry "val_acc" (metrics.accuracy_value T P);
                metric_entry "val_f1" (metrics.f1_weighted_value T P) ])
      /\ LightningModuleForTokenClassification.test_epoch_end outs s
         = (Ok tt,
            with_logs s
              [ metric_entry "test_acc" (metrics.accuracy_value T P);
                metric_entry "test_f1" (metrics.f1_weighted_value T P) ]))
  /\ (forall s : LightningModuleForTokenClassification.module,
         LightningModuleForTokenClassification.training_epoch_end
           token_scenario s
         = (Ok tt,
            with_logs s
              [ metric_entry "train_acc" (metrics.Score (1 # 2));
                metric_entry "train_f1" (metrics.Score (1 # 3)) ])
         /\ LightningModuleForTokenClassification.validation_epoch_end
              token_scenario s
            = (Ok tt,
               with_logs s
                 [ metric_entry "val_acc" (metrics.Score (1 # 3));
                   metric_entry "val_f1" (metrics.Score (2 # 9)) ])).
Proof.
  assert (forall (outs : list (step_output Z))
                 (s : LightningModuleForTokenClassification.module)
                 (P T : list Z),
             gather_pred outs = Ok P ->
             gather_true outs = Ok T ->
             length P = length T ->
             LightningModuleForTokenClassification.training_epoch_end outs s
             = (Ok tt,
                with_logs s
                  [ metric_entry "train_acc"
                      (metrics.accuracy_value (map fst (kept_pairs T P))
                                              (map snd (kept_pairs T P)));
                    metric_entry "train_f1"
                      (metrics.f1_weighted_value (map fst (kept_pairs T P))
                                                 (map snd (kept_pairs T P))) ])
             /\ LightningModuleForTokenClassification.validation_epoch_end
                  outs s
                = (Ok tt,
                   with_logs s
                     [ metric_entry "val_acc" (metrics.accuracy_value T P);
                       metric_entry "val_f1"
                         (metrics.f1_weighted_value T P) ])
             /\ LightningModuleForTokenClassification.test_epoch_end outs s
                = (Ok tt,
                   with_logs s
                     [ metric_entry "test_acc" (metrics.accuracy_value T P);
                       metric_entry "test_f1"
                         (metrics.f1_weighted_value T P) ])) as Hgen.
  { intros outs s P T HP HT Hlen.
    unfold LightningModuleForTokenClassification.training_epoch_end,
      LightningModuleForTokenClassification.validation_epoch_end,
      LightningModuleForTokenClassification.test_epoch_end.
    run_hook. rewrite HP, HT.
    rewrite (bool_index_true T P Hlen), (bool_index_pred T P Hlen).
    rewrite (accuracy_score_ok _ _ (kept_pairs_lengths T P)).
    rewrite (f1_score_weighted_ok _ _ (kept_pairs_lengths T P)).
    rewrite (accuracy_score_ok T P (eq_sym Hlen)).
    rewrite (f1_score_weighted_ok T P (eq_sym Hlen)).
    rewrite <- !app_assoc. repeat split. }
  split.
  - intros outs s P T HP HT Hlen kept. subst kept.
    split; [apply kept_pairs_no_sentinel |].
    split; [intros t p; apply kept_pairs_positions |].
    exact (Hgen outs s P T HP HT Hlen).
  - intro s.
    destruct (Hgen token_scenario s [1; 0; 1]%Z [1; -100; 0]%Z
                token_scenario_pred token_scenario_true eq_refl)
      as (Htrain & Hval & _).
    rewrite Htrain, Hval. split; reflexivity.
Qed.

Lemma token_epoch_end_sentinel_witness :
  LightningModuleForTokenClassification.training_epoch_end token_scenario
    module0
  = (Ok tt,
     with_logs module0
       [ metric_entry "train_acc"
           (metrics.accuracy_value
              (map fst (kept_pairs [1; -100; 0]%Z [1; 0; 1]%Z))
              (map snd (kept_pairs [1; -100; 0]%Z [1; 0; 1]%Z)));
         metric_entry "train_f1"
           (metrics.f1_weighted_value
              (map fst (kept_pairs [1; -100; 0]%Z [1; 0; 1]%Z))
              (map snd (kept_pairs [1; -100; 0]%Z [1; 0; 1]%Z))) ]).
Proof.
  apply (proj1 token_epoch_end_sentinel token_scenario module0
           [1; 0; 1]%Z [1; -100; 0]%Z).
  - exact token_scenario_pred.
  - reflexivity.
  - reflexivity.
Defined.

(** On the scenario of C1 the train path logs accuracy 1/2, not 1, and
    the validation path logs accuracy 1/3, not 2/3. *)
Lemma token_scenario_accuracy_differs :
  (logged
     (snd (LightningModuleForTokenClassification.training_epoch_end
             token_scenario module0))
   = [ metric_entry "train_acc" (metrics.Score (1 # 2));
       metric_entry "train_f1" (metrics.Score (1 # 3)) ]
   /\ ~ (1 # 2 == 1)%Q)
  /\ (logged
        (snd (LightningModuleForTokenClassification.validation_epoch_end
                token_scenario module0))
      = [ metric_entry "val_acc" (metrics.Score (1 # 3));
          metric_entry "val_f1" (metrics.Score (2 # 9)) ]
      /\ ~ (1 # 3 == 2 # 3)%Q).
Proof.
  unfold LightningModuleForTokenClassification.training_epoch_end,
    LightningModuleForTokenClassification.validation_epoch_end.
  run_hook.
  rewrite token_scenario_pred, token_scenario_true.
  repeat split; try reflexivity; intro H; discriminate H.
Qed.

(** ** Epoch-end hooks of the Auto module (C6) *)

Lemma auto_scenario_pred : gather_pred auto_scenario = Ok [1; 0; 1]%Z.
Proof.
  unfold gather_pred, auto_scenario, argmax_last.
  cbn -[Rlt_dec IZR].
  decide_order.
  reflexivity.
Qed.

(** C6. In the Auto module the train, validation and test epoch ends all
    drop the positions whose true label is the sentinel -100 from the
    target and the prediction array and log accuracy and weighted F1 of
    what is left; the three hooks compute the same two values (and raise
    or return alike), the validation and test hooks printing them before
    they log. *)
Theorem auto_epoch_end_filters :
  (forall (outs : list (step_output Z))
          (s : LightningModuleForAutoModels.module) (P T : list Z),
      gather_pred outs = Ok P ->
      gather_true outs = Ok T ->
      length P = length T ->
      let kept := kept_pairs T P in
      let acc := metrics.accuracy_value (map fst kept) (map snd kept) in
      let f1 := metrics.f1_weighted_value (map fst kept) (map snd kept) in
      Forall (fun t => t <> (-100)%Z) (map fst kept)
      /\ (forall t p, In (t, p) kept
                      <-> In (t, p) (combine T P) /\ t <> (-100)%Z)
      /\ LightningModuleForAutoModels.training_epoch_end outs s
         = (Ok tt,
            with_logs s
              [metric_entry "train_acc" acc; metric_entry "train_f1" f1])
      /\ LightningModuleForAutoModels.validation_epoch_end outs s
         = (Ok tt,
            with_logs (with_print s [mkPrinted "val" acc f1])
              [metric_entry "val_acc" acc; metric_entry "val_f1" f1])
      /\ LightningModuleForAutoModels.test_epoch_end outs s
         = (Ok tt,
            with_logs (with_print s [mkPrinted "test" acc f1])
              [metric_entry "test_acc" acc; metric_entry "test_f1" f1]))
  /\ (forall (outs : list (step_output Z))
             (s : LightningModuleForAutoModels.module),
         fst (LightningModuleForAutoModels.validation_epoch_end outs s)
         = fst (LightningModuleForAutoModels.training_epoch_end outs s)
         /\ fst (LightningModuleForAutoModels.test_epoch_end outs s)
            = fst (LightningModuleForAutoModels.training_epoch_end outs s)).
Proof.
  split.
  - intros outs s P T HP HT Hlen kept acc f1. subst acc f1 kept.
    split; [apply kept_pairs_no_sentinel |].
    split; [intros t p; apply kept_pairs_positions |].
    unfold LightningModuleForAutoModels.training_epoch_end,
      LightningModuleForAutoModels.validation_epoch_end,
      LightningModuleForAutoModels.test_epoch_end.
    run_hook. rewrite HP, HT.
    rewrite (bool_index_true T P Hlen), (bool_index_pred T P Hlen).
    rewrite (accuracy_score_ok _ _ (kept_pairs_lengths T P)).
    rewrite (f1_score_weighted_ok _ _ (kept_pairs_lengths T P)).
    rewrite <- !app_assoc. repeat split.
  - intros outs s.
    unfold LightningModuleForAutoModels.training_epoch_end,
      LightningModuleForAutoModels.validation_epoch_end,
      LightningModuleForAutoModels.test_epoch_end.
    run_hook.
    destruct (gather_pred outs) as [P | e]; [| split; reflexivity].
    destruct (gather_true outs) as [T | e]; [| split; reflexivity].
    destruct (bool_index T (ne T (-100))) as [T' | e];
      [| split; reflexivity].
    destruct (bool_index P (ne T (-100))) as [P' | e];
      [| split; reflexivity].
    destruct (metrics.accuracy_score T' P') as [acc | e];
      [| split; reflexivity].
    destruct (metrics.f1_score_weighted T' P') as [f1 | e];
      split; reflexivity.
Qed.

Lemma auto_epoch_end_filters_witness :
  LightningModuleForAutoModels.validation_epoch_end auto_scenario module0
  = (Ok tt,
     with_logs
       (with_print module0
          [mkPrinted "val" (metrics.Score (1 # 2)) (metrics.Score (1 # 3))])
       [ metric_entry "val_acc" (metrics.Score (1 # 2));
         metric_entry "val_f1" (metrics.Score (1 # 3)) ]).
Proof.
  apply (proj1 auto_epoch_end_filters auto_scenario module0
           [1; 0; 1]%Z [1; -100; 0]%Z).
  - exact auto_scenario_pred.
  - reflexivity.
  - reflexivity.
Defined.

(** ** Optimizer parameter groups (C3) *)

Lemma prefix_spec (sub s : string) :
  prefix sub s = true <-> exists post, s = (sub ++ post)%string.
Proof.
  revert s. induction sub as [| c sub IH]; intro s.
  - split; [intros _; now exists s | intros _; now destruct s].
  - destruct s as [| d s]; simpl.
    + split; [discriminate | intros [post H]; discriminate].
    + destruct (Ascii.ascii_dec c d) as [-> | Hne].
      * rewrite IH. split; intros [post H]; exists post.
        -- now rewrite H.
        -- now inversion H.
      * split; [discriminate |].
        intros [post H]. inversion H. congruence.
Qed.

Lemma str_in_spec (sub s : string) :
  str_in sub s = true
  <-> exists pre post, s = (pre ++ sub ++ post)%string.
Proof.
  induction s as [| c s IH]; cbn [str_in].
  - destruct (prefix sub "") eqn:Hp.
    + split; [intros _ | reflexivity].
      apply prefix_spec in Hp. destruct Hp as [post Hp].
      now exists ""%string, post.
    + split; [discriminate |].
      intros [pre [post H]].
      destruct pre as [| a pre]; [| discriminate].
      simpl in H.
      assert (prefix sub "" = true) as Hp'
        by (apply prefix_spec; now exists post).
      congruence.
  - destruct (prefix sub (String c s)) eqn:Hp.
    + split; [intros _ | reflexivity].
      apply prefix_spec in Hp. destruct Hp as [post Hp].
      now exists ""%string, post.
    + rewrite IH. split.
      * intros [pre [post H]]. exists (String c pre), post.
        simpl. now rewrite H.
      * intros [pre [post H]].
        destruct pre as [| a pre].
        -- simpl in H.
           assert (prefix sub (String c s) = true) as Hp'
             by (apply prefix_spec; now exists post).
           congruence.
        -- simpl in H. inversion H. now exists pre, post.
Qed.

Lemma is_backbone_spec (n : string) :
  is_backbone n = false <-> contains_classifier n.
Proof.
  unfold is_backbone, contains_classifier.
  rewrite negb_false_iff. apply str_in_spec.
Qed.

Lemma filter_split_perm {A} (f : A -> bool) (l : list A) :
  Permutation (filter f l ++ filter (fun x => negb (f x)) l) l.
Proof.
  induction l as [| a l IH]; [constructor |].
  simpl. destruct (f a); simpl.
  - now constructor.
  - apply Permutation_sym, Permutation_cons_app. now apply Permutation_sym.
Qed.

(** C3. For the token-classification and the Auto module,
    [configure_optimizers] returns an optimizer with exactly two
    parameter groups that split the model's named parameters: each
    named parameter goes to exactly one group, to the second (classifier)
    group if and only if its name contains "classifier"; the first
    (backbone) group has learning rate [base_lr], the classifier group
    [linear_lr], and the optimizer's default learning rate is
    [base_lr]. *)
Theorem configure_optimizers_bipartition
  (s : LightningModule PreTrainedModel) :
  exists backbone classifier : list (string * nn_Parameter),
    Permutation (backbone ++ classifier) (named_parameters (model s))
    /\ (forall n p,
           In (n, p) (named_parameters (model s)) ->
           (In (n, p) classifier <-> contains_classifier n)
           /\ (In (n, p) backbone <-> ~ contains_classifier n)
           /\ ~ (In (n, p) backbone /\ In (n, p) classifier))
    /\ LightningModuleForTokenClassification.configure_optimizers s
       = (Ok (mkOptimizer
                [ mkGroup (map snd backbone) (base_lr (hparams s));
                  mkGroup (map snd classifier) (linear_lr (hparams s)) ]
                (base_lr (hparams s))),
          s)
    /\ LightningModuleForAutoModels.configure_optimizers s
       = (Ok (mkOptimizer
                [ mkGroup (map snd backbone) (base_lr (hparams s));
                  mkGroup (map snd classifier) (linear_lr (hparams s)) ]
                (base_lr (hparams s))),
          s).
Proof.
  exists (filter (fun np => is_backbone (fst np)) (named_parameters (model s))),
    (filter (fun np => negb (is_backbone (fst np)))
            (named_parameters (model s))).
  split; [apply filter_split_perm |].
  split; [| split; reflexivity].
  intros n p Hin.
  rewrite !filter_In. cbn [fst].
  rewrite <- is_backbone_spec.
  destruct (is_backbone n); simpl; intuition congruence.
Qed.

Lemma configure_optimizers_bipartition_witness :
  exists backbone classifier : list (string * nn_Parameter),
    Permutation (backbone ++ classifier) (named_parameters constant_net)
    /\ LightningModuleForTokenClassification.configure_optimizers module0
       = (Ok (mkOptimizer
                [ mkGroup (map snd backbone) (1 / 100000)%R;
                  mkGroup (map snd classifier) (1 / 1000)%R ]
                (1 / 100000)%R),
          module0).
Proof.
  destruct (configure_optimizers_bipartition module0)
    as (backbone & classifier & Hperm & _ & Htoken & _).
  exists backbone, classifier. split; assumption.
Defined.

(** ** The weighted cross-entropy of the Auto module (C4) *)

Lemma Rsum_exp_pos (x : list R) : x <> [] -> (0 < Rsum (map exp x))%R.
Proof.
  assert (forall l, 0 <= Rsum (map exp l))%R as Hnn.
  { induction l as [| a l IH]; simpl; [lra |].
    pose proof (exp_pos a). lra. }
  destruct x as [| a x]; [congruence | intros _].
  simpl. pose proof (exp_pos a). specialize (Hnn x). lra.
Qed.

Lemma log_softmax_is_ln_softmax (x : list R) (y : nat) :
  x <> [] ->
  LightningModuleForAutoModels.log_softmax_at x y = ln (softmax_at x y).
Proof.
  intro Hx.
  unfold LightningModuleForAutoModels.log_softmax_at, softmax_at.
  unfold Rdiv.
  rewrite ln_mult.
  - rewrite ln_Rinv by now apply Rsum_exp_pos.
    rewrite ln_exp. lra.
  - apply exp_pos.
  - apply Rinv_0_lt_compat. now apply Rsum_exp_pos.
Qed.

Lemma loss_fn_one_sample (x : list R) (y : Z) :
  length x = 3%nat ->
  (0 <= y < 3)%Z ->
  LightningModuleForAutoModels.loss_fn (one_sample x) (one_target y)
  = Ok (- ln (softmax_at x (Z.to_nat y)))%R.
Proof.
  intros Hlen Hy.
  assert (x <> []) as Hx by (intro; subst; discriminate).
  unfold LightningModuleForAutoModels.loss_fn,
    LightningModuleForAutoModels.CrossEntropyLoss, one_sample, one_target.
  cbn [shape data Nat.eqb length negb forallb andb].
  assert (LightningModuleForAutoModels.in_range 3 y = true) as Hr.
  { unfold LightningModuleForAutoModels.in_range.
    apply orb_true_iff. right.
    apply andb_true_iff. split; [apply Z.leb_le | apply Z.ltb_lt]; lia. }
  rewrite Hr. cbn [negb andb rows_of combine].
  replace (firstn 3 x) with x by (rewrite <- Hlen; now rewrite firstn_all).
  assert (LightningModuleForAutoModels.ignored y = false) as Hi
    by (apply Z.eqb_neq; lia).
  cbn [filter snd]. rewrite Hi.
  cbn [negb map Rsum fold_right fst snd].
  unfold LightningModuleForAutoModels.weighted_nll. cbn [fst snd].
  rewrite (log_softmax_is_ln_softmax (Z.to_nat y) Hx).
  f_equal.
  assert (y = 0 \/ y = 1 \/ y = 2)%Z as [-> | [-> | ->]] by lia;
    simpl (nth _ _ _); field.
Qed.

Lemma ln_3_lt_ln_4 : (ln 3 < ln 4)%R.
Proof. apply ln_increasing; lra. Qed.

Lemma ln_4_lt_ln_5 : (ln 4 < ln 5)%R.
Proof. apply ln_increasing; lra. Qed.

Lemma ln_4_pos : (0 < ln 4)%R.
Proof. rewrite <- ln_1. apply ln_increasing; lra. Qed.

Lemma class2_probability : softmax_at class2_logits 2 = (2 / 5)%R.
Proof.
  unfold softmax_at, class2_logits. cbn [nth map Rsum fold_right].
  rewrite !exp_ln by lra. field.
Qed.

Lemma class1_probability : softmax_at class1_logits 1 = (2 / 5)%R.
Proof.
  unfold softmax_at, class1_logits. cbn [nth map Rsum fold_right].
  rewrite !exp_ln by lra. rewrite exp_0. field.
Qed.

(** C4, as amended. For [loss_fn] (cross-entropy with the fixed class
    weights [0.30, 1.00, 0.10] and mean reduction) the loss of a single
    sample of class c is its weighted term, the weight of c times the
    negative logarithm of the probability given to c, divided by the
    weight of the same class c: the class weight does not scale the loss
    of a single sample. So a correctly predicted class-2 sample is not
    always strictly below an incorrectly predicted class-1 sample with
    the same probability of the true class: for the logits
    (ln 3, ln 3, ln 4) with target 2 and (ln 5, ln 4, 0) with target 1,
    both with probability 2/5 of the true class, it is not lower. *)
Theorem loss_fn_single_sample_mean_reduction :
  (forall (x : list R) (y : Z),
      length x = 3%nat ->
      (0 <= y < 3)%Z ->
      let w := nth (Z.to_nat y) [(3 / 10)%R; 1%R; (1 / 10)%R] 0%R in
      LightningModuleForAutoModels.loss_fn (one_sample x) (one_target y)
      = Ok ((w * - ln (softmax_at x (Z.to_nat y))) / w)%R)
  /\ (argmax_last (one_sample class2_logits) = Ok (mkTensor [1]%nat [2%Z])
      /\ argmax_last (one_sample class1_logits)
         = Ok (mkTensor [1]%nat [0%Z])
      /\ softmax_at class2_logits 2 = (2 / 5)%R
      /\ softmax_at class1_logits 1 = (2 / 5)%R
      /\ exists l2 l1 : R,
           LightningModuleForAutoModels.loss_fn (one_sample class2_logits)
             (one_target 2) = Ok l2
           /\ LightningModuleForAutoModels.loss_fn
                (one_sample class1_logits) (one_target 1) = Ok l1
           /\ ~ (l2 < l1)%R).
Proof.
  split.
  - intros x y Hlen Hy w. subst w.
    rewrite (loss_fn_one_sample x Hlen Hy). f_equal.
    assert (y = 0 \/ y = 1 \/ y = 2)%Z as [-> | [-> | ->]] by lia;
      simpl (nth _ _ _); field.
  - pose proof ln_3_lt_ln_4. pose proof ln_4_lt_ln_5. pose proof ln_4_pos.
    split; [| split; [| split; [| split]]].
    + unfold argmax_last, one_sample, class2_logits.
      cbn -[Rlt_dec IZR ln]. decide_order. reflexivity.
    + unfold argmax_last, one_sample, class1_logits.
      cbn -[Rlt_dec IZR ln]. decide_order. reflexivity.
    + exact class2_probability.
    + exact class1_probability.
    + exists (- ln (2 / 5))%R, (- ln (2 / 5))%R.
      rewrite <- class2_probability at 1.
      rewrite <- class1_probability at 1.
      split; [apply loss_fn_one_sample; [reflexivity | lia] |].
      split; [apply loss_fn_one_sample; [reflexivity | lia] |].
      lra.
Qed.

Lemma loss_fn_single_sample_mean_reduction_witness :
  LightningModuleForAutoModels.loss_fn (one_sample class2_logits)
    (one_target 2)
  = Ok ((1 / 10 * - ln (softmax_at class2_logits 2)) / (1 / 10))%R.
Proof.
  apply (proj1 loss_fn_single_sample_mean_reduction class2_logits 2%Z).
  - reflexivity.
  - lia.
Defined.

(** A correctly predicted class-2 sample and an incorrectly predicted
    class-1 sample, both with probability 2/5 of the true class, whose
    losses under [loss_fn] are equal: the first is not strictly lower. *)
Lemma loss_fn_equal_confidence_equal_loss :
  argmax_last (one_sample class2_logits) = Ok (mkTensor [1]%nat [2%Z])
  /\ argmax_last (one_sample class1_logits) = Ok (mkTensor [1]%nat [0%Z])
  /\ softmax_at class2_logits 2 = softmax_at class1_logits 1
  /\ exists l2 l1 : R,
       LightningModuleForAutoModels.loss_fn (one_sample class2_logits)
         (one_target 2) = Ok l2
       /\ LightningModuleForAutoModels.loss_fn (one_sample class1_logits)
            (one_target 1) = Ok l1
       /\ ~ (l2 < l1)%R.
Proof.
  pose proof ln_3_lt_ln_4. pose proof ln_4_lt_ln_5. pose proof ln_4_pos.
  split; [| split; [| split]].
  - unfold argmax_last, one_sample, class2_logits.
    cbn -[Rlt_dec IZR ln]. decide_order. reflexivity.
  - unfold argmax_last, one_sample, class1_logits.
    cbn -[Rlt_dec IZR ln]. decide_order. reflexivity.
  - now rewrite class2_probability, class1_probability.
  - exists (- ln (2 / 5))%R, (- ln (2 / 5))%R.
    rewrite <- class2_probability at 1.
    rewrite <- class1_probability at 1.
    split; [apply loss_fn_one_sample; [reflexivity | lia] |].
    split; [apply loss_fn_one_sample; [reflexivity | lia] |].
    lra.
Qed.

(** ** The binary head (C8) *)

Lemma concat_map_singleton {A B} (f : A -> B) (l : list A) :
  concat (map (fun x => [f x]) l) = map f l.
Proof. induction l as [| a l IH]; simpl; [reflexivity | now rewrite IH]. Qed.

Lemma apply_Linear_768_1 (l : Linear) (x : tensor R) (n : nat) :
  in_features l = 768%nat ->
  out_features l = 1%nat ->
  shape x = [n; 768]%nat ->
  apply_Linear l x
  = Ok (mkTensor [n; 1]%nat
          (map (fun row => (dot row (nth 0 (weight l) []) + nth 0 (bias l) 0)%R)
               (rows_of n 768 (data x)))).
Proof.
  intros Hin Hout Hx.
  unfold apply_Linear. rewrite Hx. cbn [rev app].
  rewrite Hin, Nat.eqb_refl, Hout.
  cbn [numel fold_right app]. rewrite Nat.mul_1_r.
  unfold linear_row. rewrite Hout. cbn [seq map].
  now rewrite concat_map_singleton.
Qed.

Lemma sum_shift (f : nat -> R) (m : nat) :
  fold_right Rplus 0%R (map f (seq 0 (S m)))
  = (f 0%nat + fold_right Rplus 0 (map (fun j => f (S j)) (seq 0 m)))%R.
Proof.
  cbn [seq map fold_right]. now rewrite <- seq_shift, map_map.
Qed.

Lemma sum_zero (f : nat -> R) (l : list nat) :
  (forall j, f j = 0%R) -> fold_right Rplus 0%R (map f l) = 0%R.
Proof.
  intro Hf. induction l as [| j l IH]; simpl; [reflexivity |].
  rewrite Hf, IH. lra.
Qed.

Lemma dot_as_sum (xs : list R) :
  forall (ws : list R) (m : nat),
    (length xs <= m)%nat ->
    dot xs ws
    = fold_right Rplus 0%R
        (map (fun j => (nth j xs 0 * nth j ws 0)%R) (seq 0 m)).
Proof.
  unfold dot, Rsum.
  induction xs as [| x xs IH]; intros ws m Hlen.
  - simpl. symmetry. apply sum_zero. intros [| j]; simpl; lra.
  - destruct ws as [| w ws].
    + simpl. symmetry. apply sum_zero. intros [| j]; simpl; lra.
    + destruct m as [| m]; [simpl in Hlen; lia |].
      rewrite sum_shift. cbn [combine map fold_right fst snd nth].
      rewrite (IH ws m) by (simpl in Hlen; lia). reflexivity.
Qed.

Lemma rows_of_as_seq {A B} (g : list A -> B) (d n : nat) :
  forall l : list A,
    map g (rows_of n d l)
    = map (fun i => g (firstn d (skipn (i * d) l))) (seq 0 n).
Proof.
  induction n as [| n IH]; intro l; [reflexivity |].
  cbn [rows_of map seq]. f_equal.
  rewrite IH, <- seq_shift, map_map.
  apply map_ext. intro i. rewrite skipn_skipn.
  now replace (i * d + d)%nat with (S i * d)%nat by lia.
Qed.

Lemma nth_dropout_from (p : R) (keep : nat -> bool) (l : list R) :
  forall i0 k : nat,
    nth k (dropout_from p keep i0 l) 0%R
    = (if keep (i0 + k)%nat then nth k l 0 / (1 - p) else 0)%R.
Proof.
  induction l as [| x l IH]; intros i0 k.
  - destruct k; simpl; destruct (keep _); unfold Rdiv; lra.
  - destruct k as [| k]; simpl.
    + now rewrite Nat.add_0_r.
    + rewrite IH. now replace (S i0 + k)%nat with (i0 + S k)%nat by lia.
Qed.

Lemma nth_after_dropout (training : bool) (keep : nat -> bool)
  (pooled : tensor R) (k : nat) :
  nth k (data (Dropout (3 / 10) training keep pooled)) 0%R
  = after_dropout training keep pooled k.
Proof.
  unfold Dropout, after_dropout. destruct training; cbn [data].
  - apply nth_dropout_from.
  - reflexivity.
Qed.

(** C8. The binary model's forward runs the pretrained encoder, takes
    the second (pooled) element of its output, applies dropout with rate
    0.3 (nothing outside training mode; in training mode an element is
    scaled by 1/(1 - 0.3) when the random sample keeps it and zeroed
    otherwise), and applies the linear projection from 768 features to
    1 with no activation: for a pooled output of shape (n, 768) it
    returns the tensor of shape (n, 1) whose i-th element is the sum,
    over the 768 features j, of the element (i, j) after dropout times
    the j-th weight, plus the bias. *)
Theorem forward_contract
  (from_pretrained : string -> AutoModel)
  (weight0 : list (list R)) (bias0 : list R) (args : hyperparameters)
  (training : bool) (keep : nat -> bool)
  (ids_seq attn_masks : tensor Z) (token_type_ids : option (tensor Z))
  (sequence_output pooled : tensor R) (n : nat) :
  am_forward (from_pretrained (base_path args)) ids_seq attn_masks
    token_type_ids = Ok (sequence_output, pooled) ->
  shape pooled = [n; 768]%nat ->
  MainModel.forward
    (MainModel.__init__ from_pretrained weight0 bias0 args)
    training keep ids_seq attn_masks token_type_ids
  = Ok (mkTensor [n; 1]%nat
          (map (projected (nth 0 weight0 []) (nth 0 bias0 0%R)
                  (after_dropout training keep pooled))
               (seq 0 n))).
Proof.
  intros Henc Hshape.
  unfold MainModel.forward, MainModel.__init__.
  cbn [MainModel.base MainModel.dropout MainModel.linear].
  rewrite Henc. cbn [rbind snd].
  rewrite (@apply_Linear_768_1 _ _ n);
    [| reflexivity | reflexivity
     | unfold Dropout; destruct training; cbn [shape]; assumption].
  cbn [weight bias]. do 2 f_equal.
  rewrite rows_of_as_seq. apply map_ext. intro i.
  unfold projected. f_equal.
  rewrite (@dot_as_sum _ (nth 0 weight0 []) 768)
    by apply firstn_le_length.
  f_equal. apply map_ext_in. intros j Hj. apply in_seq in Hj.
  rewrite nth_firstn.
  replace (j <? 768)%nat with true by (symmetry; apply Nat.ltb_lt; lia).
  now rewrite nth_skipn, nth_after_dropout.
Qed.

Lemma sum_first_only (f : nat -> R) (m : nat) :
  (forall j, f (S j) = 0%R) ->
  fold_right Rplus 0%R (map f (seq 0 (S m))) = f 0%nat.
Proof.
  intro Hf. rewrite sum_shift, sum_zero by exact Hf. lra.
Qed.

Lemma forward_contract_witness :
  MainModel.forward
    (MainModel.__init__ (fun _ => two_row_encoder)
       [2%R :: repeat 0%R 767] [(1 / 2)%R] hparams0)
    true keep_first
    (mkTensor [2; 4]%nat (repeat 0%Z 8))
    (mkTensor [2; 4]%nat (repeat 1%Z 8)) None
  = Ok (mkTensor [2; 1]%nat [(127 / 14)%R; (1 / 2)%R]).
Proof.
  rewrite (@forward_contract (fun _ => two_row_encoder)
             [2%R :: repeat 0%R 767] [(1 / 2)%R] hparams0 true keep_first
             (mkTensor [2; 4]%nat (repeat 0%Z 8))
             (mkTensor [2; 4]%nat (repeat 1%Z 8)) None
             (mkTensor [2; 4; 768]%nat [])
             (mkTensor [2; 768]%nat
                ((3%R :: repeat 0%R 767) ++ (5%R :: repeat 0%R 767))%list)
             2%nat eq_refl eq_refl).
  do 2 f_equal. cbn [seq map nth].
  unfold projected.
  rewrite !sum_first_only
    by (intro j; cbn [nth]; rewrite nth_repeat; lra).
  unfold after_dropout, keep_first. cbn [data].
  change (1 * 768 + 0 =? 0)%nat with false.
  cbn [Nat.mul Nat.add Nat.eqb nth app].
  f_equal; [field | f_equal; lra].
Defined.

(** ** The binary step on a batch of one sample (C10) *)

Lemma squeeze_column {A} (t : tensor A) (n : nat) :
  shape t = [n; 1]%nat ->
  shape (squeeze t) = if (n =? 1)%nat then [] else [n].
Proof.
  intro H. unfold squeeze. cbn [shape]. rewrite H. cbn [filter Nat.eqb negb].
  destruct (n =? 1)%nat; reflexivity.
Qed.

Lemma shape_eqb_refl (s : list nat) : shape_eqb s s = true.
Proof. unfold shape_eqb. destruct (list_eq_dec Nat.eq_dec s s); congruence. Qed.

Lemma shape_eqb_neq (s1 s2 : list nat) : s1 <> s2 -> shape_eqb s1 s2 = false.
Proof.
  unfold shape_eqb. destruct (list_eq_dec Nat.eq_dec s1 s2); congruence.
Qed.

Lemma binary_forward_shape
  (s : SequenceClassicationLightningModule.module)
  (b : SequenceClassicationLightningModule.batch) (keep : nat -> bool)
  (sequence_output pooled : tensor R) (n : nat) :
  in_features (MainModel.linear (model s)) = 768%nat ->
  out_features (MainModel.linear (model s)) = 1%nat ->
  am_forward (MainModel.base (model s))
    (SequenceClassicationLightningModule.ids_seq b)
    (SequenceClassicationLightningModule.attn_masks b) None
  = Ok (sequence_output, pooled) ->
  shape pooled = [n; 768]%nat ->
  exists out,
    MainModel.forward (model s) (training s) keep
      (SequenceClassicationLightningModule.ids_seq b)
      (SequenceClassicationLightningModule.attn_masks b) None = Ok out
    /\ shape out = [n; 1]%nat.
Proof.
  intros Hin Hout Henc Hshape.
  unfold MainModel.forward. rewrite Henc. cbn [rbind snd].
  rewrite (@apply_Linear_768_1 _ _ n Hin Hout).
  - eexists. split; reflexivity.
  - unfold Dropout. destruct (training s); cbn [shape]; assumption.
Qed.

(** C10. When the batch holds exactly one sample (pooled encoder output
    of shape (1, 768), target of shape (1,)), the squeeze in
    [shared_step] turns the (1, 1) logits into a zero-dimensional
    tensor, the loss rejects it against the one-dimensional target with
    a [ValueError], and so do both step hooks. With [n >= 2] samples and
    a target of shape (n,) the logits have shape (n,) and the loss is
    computed. *)
Theorem single_sample_batch_fails
  (s : SequenceClassicationLightningModule.module)
  (b : SequenceClassicationLightningModule.batch) (keep : nat -> bool)
  (batch_idx : nat) (sequence_output pooled : tensor R) (n : nat) :
  in_features (MainModel.linear (model s)) = 768%nat ->
  out_features (MainModel.linear (model s)) = 1%nat ->
  am_forward (MainModel.base (model s))
    (SequenceClassicationLightningModule.ids_seq b)
    (SequenceClassicationLightningModule.attn_masks b) None
  = Ok (sequence_output, pooled) ->
  shape pooled = [n; 768]%nat ->
  shape (SequenceClassicationLightningModule.target b) = [n] ->
  (n = 1%nat ->
   SequenceClassicationLightningModule.shared_step b keep s
   = (Raise ValueError, s)
   /\ SequenceClassicationLightningModule.training_step b batch_idx keep s
      = (Raise ValueError, s)
   /\ SequenceClassicationLightningModule.validation_step b batch_idx keep s
      = (Raise ValueError, s))
  /\ ((2 <= n)%nat ->
      exists (logits : tensor R) (l : R),
        SequenceClassicationLightningModule.shared_step b keep s
        = (Ok (logits, l), s)
        /\ shape logits = [n]
        /\ SequenceClassicationLightningModule.loss logits
             (SequenceClassicationLightningModule.target b) = Ok l).
Proof.
  intros Hin Hout Henc Hshape Htarget.
  destruct (binary_forward_shape s b keep Hin Hout Henc Hshape)
    as [out [Hfwd Hout_shape]].
  pose proof (squeeze_column out Hout_shape) as Hsq.
  split.
  - intros ->. cbn [Nat.eqb] in Hsq.
    assert (SequenceClassicationLightningModule.shared_step b keep s
            = (Raise ValueError, s)) as Hstep.
    { unfold SequenceClassicationLightningModule.shared_step,
        SequenceClassicationLightningModule.loss, BCEWithLogitsLoss.
      unfold bind, gets, lift, ret. rewrite Hfwd, Hsq, Htarget.
      rewrite shape_eqb_neq by discriminate. reflexivity. }
    split; [exact Hstep |].
    unfold SequenceClassicationLightningModule.training_step,
      SequenceClassicationLightningModule.validation_step.
    unfold bind at 1 3. rewrite Hstep. split; reflexivity.
  - intro Hn.
    assert ((n =? 1)%nat = false) as Hne by (apply Nat.eqb_neq; lia).
    rewrite Hne in Hsq.
    assert (SequenceClassicationLightningModule.loss (squeeze out)
              (SequenceClassicationLightningModule.target b)
            = Ok (mean (map (fun xt => bce1 (fst xt) (snd xt))
                    (combine (data (squeeze out))
                       (data (SequenceClassicationLightningModule.target b))))))
      as Hloss.
    { unfold SequenceClassicationLightningModule.loss, BCEWithLogitsLoss.
      rewrite Hsq, Htarget, shape_eqb_refl. reflexivity. }
    exists (squeeze out). eexists.
    split; [| split; [exact Hsq | exact Hloss]].
    unfold SequenceClassicationLightningModule.shared_step.
    unfold bind, gets, lift, ret. rewrite Hfwd, Hloss. reflexivity.
Qed.

Lemma single_sample_batch_fails_witness :
  SequenceClassicationLightningModule.shared_step
    (binary_batch 1 [1%R]) keep_all binary_module0
  = (Raise ValueError, binary_module0)
  /\ exists (logits : tensor R) (l : R),
       SequenceClassicationLightningModule.shared_step
         (binary_batch 2 [1%R; 0%R]) keep_all binary_module0
       = (Ok (logits, l), binary_module0)
       /\ shape logits = [2]%nat.
Proof.
  split.
  - apply (single_sample_batch_fails binary_module0
             (binary_batch 1 [1%R]) keep_all 0
             (sequence_output := mkTensor [1; 4; 768]%nat [])
             (pooled := mkTensor [1; 768]%nat (repeat 0%R (1 * 768)))
             (n := 1%nat));
      reflexivity.
  - destruct (single_sample_batch_fails binary_module0
                (binary_batch 2 [1%R; 0%R]) keep_all 0
                (sequence_output := mkTensor [2; 4; 768]%nat [])
                (pooled := mkTensor [2; 768]%nat (repeat 0%R (2 * 768)))
                (n := 2%nat) eq_refl eq_refl eq_refl eq_refl eq_refl)
      as [_ H].
    destruct (H (le_n 2)) as (logits & l & Hs & Hsh & _).
    now exists logits, l.
Defined.

(** ** Epoch-end hooks of the binary module (C2) *)

Lemma cat_shape_1d (ss : list (list nat)) :
  Forall (fun s => exists n, s = [n]) ss ->
  forall acc : option (list nat),
    (acc = None \/ exists k, acc = Some [k]) ->
    exists m, cat_shape acc ss = Ok [m].
Proof.
  induction 1 as [| s ss [n ->] _ IH]; intros acc Hacc.
  - destruct Hacc as [-> | [k ->]]; simpl; eauto.
  - cbn [cat_shape].
    destruct (is_skipped [n]); [now apply IH |].
    destruct Hacc as [-> | [k ->]].
    + apply IH. right. eauto.
    + rewrite shape_eqb_refl. apply IH. right. eauto.
Qed.

Lemma cat_1d {A} (ts : list (tensor A)) :
  ts <> [] ->
  Forall (fun t => exists n, shape t = [n]) ts ->
  exists m, cat ts = Ok (mkTensor [m] (concat (map (@data A) ts))).
Proof.
  intros Hne Hall.
  rewrite (cat_nonempty Hne).
  destruct (@cat_shape_1d (map (@shape A) ts)) with (acc := @None (list nat))
    as [m Hm].
  - apply Forall_map. exact Hall.
  - now left.
  - exists m. now rewrite Hm.
Qed.






Lemma binary_epoch_arrays (outs : list (step_output R)) :
  outs <> [] ->
  Forall buffered_1d outs ->
  SequenceClassicationLightningModule.epoch_arrays outs
  = Ok (threshold_predictions (epoch_logits outs),
        map trunc1 (epoch_targets outs)).
Proof.
  intros Hne Hall.
  unfold SequenceClassicationLightningModule.epoch_arrays.
  destruct (@cat_1d R (map (@out_logits R) outs)) as [m Hm].
  { destruct outs; [congruence | discriminate]. }
  { apply Forall_map. eapply Forall_impl; [| exact Hall].
    intros o (H & _). eauto. }
  destruct (@cat_1d R (map (@out_true_preds R) outs)) as [k Hk].
  { destruct outs; [congruence | discriminate]. }
  { apply Forall_map. eapply Forall_impl; [| exact Hall].
    intros o (_ & H & _). eauto. }
  rewrite Hm, Hk. cbn [rbind].
  unfold metrics.column_or_1d, ge_half, sigmoid, to_int, tmap.
  cbn [shape data rbind].
  unfold threshold_predictions, epoch_logits, epoch_targets.
  rewrite !map_map. reflexivity.
Qed.








(** ** The hyperparameter snapshot (C9) *)

Section Frame.
Context {Net : Type}.

Lemma frame_ret {A} (a : A) : frame (ret a : M (LightningModule Net) A).
Proof. intro s. repeat split. Qed.

Lemma frame_lift {A} (r : result A) :
  frame (lift r : M (LightningModule Net) A).
Proof. intro s. repeat split. Qed.

Lemma frame_gets {A} (f : LightningModule Net -> A) : frame (gets f).
Proof. intro s. repeat split. Qed.

Lemma frame_log (name : string) (v : log_value) (os oe : option bool)
  (pb lg : bool) :
  frame (log name v os oe pb lg : M (LightningModule Net) unit).
Proof. intro s. repeat split. Qed.

Lemma frame_log_default (name : string) (v : log_value) :
  frame (log_default name v : M (LightningModule Net) unit).
Proof. intro s. repeat split. Qed.

Lemma frame_print (tag : string) (a f : metrics.score) :
  frame (print tag a f : M (LightningModule Net) unit).
Proof. intro s. repeat split. Qed.

Lemma frame_bind {A B} (m : M (LightningModule Net) A)
  (k : A -> M (LightningModule Net) B) :
  frame m -> (forall a, frame (k a)) -> frame (bind m k).
Proof.
  intros Hm Hk s. unfold bind.
  destruct (Hm s) as (H1 & H2 & H3).
  destruct (m s) as [[a | e] s1]; cbn [snd] in *.
  - destruct (Hk a s1) as (K1 & K2 & K3).
    repeat split; congruence.
  - repeat split; assumption.
Qed.
End Frame.

Create HintDb frame.
#[export] Hint Resolve frame_ret frame_lift frame_gets frame_log
  frame_log_default frame_print : frame.

Ltac frame_steps :=
  repeat (apply frame_bind; [| intro]); auto with frame.

Lemma frame_binary_shared_step b keep :
  frame (SequenceClassicationLightningModule.shared_step b keep).
Proof.
  unfold SequenceClassicationLightningModule.shared_step. frame_steps.
Qed.

#[export] Hint Resolve frame_binary_shared_step : frame.

Lemma frame_call_model_token b :
  frame (LightningModuleForTokenClassification.call_model b).
Proof.
  unfold LightningModuleForTokenClassification.call_model. frame_steps.
Qed.

Lemma frame_call_model_auto b :
  frame (LightningModuleForAutoModels.call_model b).
Proof.
  unfold LightningModuleForAutoModels.call_model. frame_steps.
Qed.

#[export] Hint Resolve frame_call_model_token frame_call_model_auto : frame.

Ltac frame_hook :=
  cbv delta [SequenceClassicationLightningModule.training_step
             SequenceClassicationLightningModule.validation_step
             SequenceClassicationLightningModule.configure_optimizers
             SequenceClassicationLightningModule.training_epoch_end
             SequenceClassicationLightningModule.validation_epoch_end
             SequenceClassicationLightningModule.epoch_end
             LightningModuleForTokenClassification.training_step
             LightningModuleForTokenClassification.validation_step
             LightningModuleForTokenClassification.test_step
             LightningModuleForTokenClassification.configure_optimizers
             LightningModuleForTokenClassification.training_epoch_end
             LightningModuleForTokenClassification.validation_epoch_end
             LightningModuleForTokenClassification.test_epoch_end
             LightningModuleForAutoModels.training_step
             LightningModuleForAutoModels.validation_step
             LightningModuleForAutoModels.test_step
             LightningModuleForAutoModels.configure_optimizers
             LightningModuleForAutoModels.training_epoch_end
             LightningModuleForAutoModels.validation_epoch_end
             LightningModuleForAutoModels.test_epoch_end];
  cbv beta; frame_steps.

Lemma frame_call_binary (h : binary_hook)
  (s : SequenceClassicationLightningModule.module) :
  hparams (call_binary s h) = hparams s
  /\ model (call_binary s h) = model s
  /\ training (call_binary s h) = training s.
Proof.
  destruct h; unfold call_binary, after;
    match goal with
    | |- context [snd (?m s)] =>
        let H := fresh in assert (frame m) as H by frame_hook; apply H
    end.
Qed.

Lemma frame_call_token (h : task_hook)
  (s : LightningModuleForTokenClassification.module) :
  hparams (call_token s h) = hparams s
  /\ model (call_token s h) = model s
  /\ training (call_token s h) = training s.
Proof.
  destruct h; unfold call_token, after;
    match goal with
    | |- context [snd (?m s)] =>
        let H := fresh in assert (frame m) as H by frame_hook; apply H
    end.
Qed.

Lemma frame_call_auto (h : task_hook)
  (s : LightningModuleForAutoModels.module) :
  hparams (call_auto s h) = hparams s
  /\ model (call_auto s h) = model s
  /\ training (call_auto s h) = training s.
Proof.
  destruct h; unfold call_auto, after;
    match goal with
    | |- context [snd (?m s)] =>
        let H := fresh in assert (frame m) as H by frame_hook; apply H
    end.
Qed.

Lemma fold_left_invariant {St H X} (call : St -> H -> St) (f : St -> X) :
  (forall s h, f (call s h) = f s) ->
  forall hooks s, f (fold_left call hooks s) = f s.
Proof.
  intros Hstep hooks. induction hooks as [| h hooks IH]; intro s.
  - reflexivity.
  - simpl. now rewrite IH, Hstep.
Qed.

(** C9. The hyperparameters captured at module construction are the
    constructor's argument, and every lifecycle call of every task
    module (step hooks, epoch-end hooks, [configure_optimizers]),
    returning or raising, leaves them unchanged; so does every sequence
    of such calls. *)
Theorem hparams_never_mutated :
  (forall from_pretrained weight0 bias0 args,
      hparams (SequenceClassicationLightningModule.__init__ from_pretrained
                 weight0 bias0 args) = args)
  /\ (forall from_pretrained args,
         hparams (LightningModuleForTokenClassification.__init__
                    from_pretrained args) = args)
  /\ (forall from_pretrained args,
         hparams (LightningModuleForAutoModels.__init__
                    from_pretrained args) = args)
  /\ (forall (hooks : list binary_hook) s,
         hparams (fold_left call_binary hooks s) = hparams s)
  /\ (forall (hooks : list task_hook) s,
         hparams (fold_left call_token hooks s) = hparams s)
  /\ (forall (hooks : list task_hook) s,
         hparams (fold_left call_auto hooks s) = hparams s).
Proof.
  split; [reflexivity |].
  split; [reflexivity |].
  split; [reflexivity |].
  split; [| split].
  - apply fold_left_invariant. intros s h. apply frame_call_binary.
  - apply fold_left_invariant. intros s h. apply frame_call_token.
  - apply fold_left_invariant. intros s h. apply frame_call_auto.
Qed.

(** ** Step outputs and the epoch buffer (C7) *)

Lemma run_steps_buffer {St B O} (step : B -> nat -> M St O)
  (Inv : St -> Prop) (batches : list B) :
  (forall b i s, In b batches -> Inv s ->
                 exists o s', step b i s = (Ok o, s') /\ Inv s') ->
  forall (i0 : nat) (s : St),
    Inv s ->
    exists outs s',
      run_steps step batches i0 s = (Ok outs, s')
      /\ Inv s'
      /\ length outs = length batches
      /\ forall i b,
           nth_error batches i = Some b ->
           exists o s1 s2,
             nth_error outs i = Some o
             /\ Inv s1
             /\ step b (i0 + i)%nat s1 = (Ok o, s2).
Proof.
  induction batches as [| b batches IH]; intros Hstep i0 s Hs.
  - exists [], s. repeat split; auto.
    intros [| i] b' H; discriminate.
  - destruct (Hstep b i0 s (or_introl eq_refl) Hs) as (o & s1 & Ho & Hs1).
    destruct (IH (fun b' i s' Hin => Hstep b' i s' (or_intror Hin))
                 (S i0) s1 Hs1)
      as (outs & s2 & Hrun & Hs2 & Hlen & Hnth).
    exists (o :: outs), s2.
    cbn [run_steps]. unfold bind at 1. rewrite Ho.
    unfold bind at 1. rewrite Hrun. unfold ret.
    repeat split; auto.
    + simpl. now rewrite Hlen.
    + intros [| i] b' Hb'; simpl in Hb'.
      * inversion Hb'; subst b'.
        exists o, s, s1. rewrite Nat.add_0_r. auto.
      * destruct (Hnth i b' Hb') as (o' & t1 & t2 & Hn & Ht1 & Hst).
        exists o', t1, t2.
        replace (i0 + S i)%nat with (S i0 + i)%nat by lia. auto.
Qed.

Lemma binary_shared_step_state b keep
  (s : SequenceClassicationLightningModule.module) :
  snd (SequenceClassicationLightningModule.shared_step b keep s) = s.
Proof.
  unfold SequenceClassicationLightningModule.shared_step.
  unfold bind, gets, lift, ret.
  destruct (MainModel.forward _ _ _ _ _ _) as [out | e]; [| reflexivity].
  destruct (SequenceClassicationLightningModule.loss _ _); reflexivity.
Qed.

(** C7, as amended. In every task module the training step returns a
    dict with the three keys loss, logits and true_preds, while the
    validation and test steps return a dict with logits and true_preds
    only (no loss key); the logits are the model's, the true_preds the
    batch's targets. When the step hook succeeds on every batch, the
    epoch loop returns a buffer holding exactly one entry per batch, the
    i-th entry being what the step returned for the i-th batch. *)
Theorem step_outputs_and_buffer :
  (forall (s : LightningModule PreTrainedModel) (b : batch) (i : nat)
          (output : model_output),
      pm_forward (model s) b = Ok output ->
      LightningModuleForTokenClassification.training_step b i s
      = (Ok (buffered_entry true output b),
         with_logs s [loss_entry "train_loss" (loss output) true true true])
      /\ LightningModuleForTokenClassification.validation_step b i s
         = (Ok (buffered_entry false output b),
            with_logs s
              [loss_entry "valid_loss" (loss output) false true true])
      /\ LightningModuleForTokenClassification.test_step b i s
         = (Ok (buffered_entry false output b),
            with_logs s
              [loss_entry "test_loss" (loss output) false true true])
      /\ LightningModuleForAutoModels.training_step b i s
         = (Ok (buffered_entry true output b),
            with_logs s
              [loss_entry "train_loss" (loss output) true true true])
      /\ LightningModuleForAutoModels.validation_step b i s
         = (Ok (buffered_entry false output b),
            with_logs s
              [loss_entry "valid_loss" (loss output) false true true])
      /\ LightningModuleForAutoModels.test_step b i s
         = (Ok (buffered_entry false output b),
            with_logs s
              [loss_entry "test_loss" (loss output) false true true]))
  /\ (forall (s : SequenceClassicationLightningModule.module)
             (b : SequenceClassicationLightningModule.batch) (i : nat)
             (keep : nat -> bool) (lg : tensor R) (l : R),
         fst (SequenceClassicationLightningModule.shared_step b keep s)
         = Ok (lg, l) ->
         SequenceClassicationLightningModule.training_step b i keep s
         = (Ok (mkOut (Some l) lg
                  (SequenceClassicationLightningModule.target b)),
            with_logs s [loss_entry "train_loss" l true true false])
         /\ SequenceClassicationLightningModule.validation_step b i keep s
            = (Ok (mkOut None lg
                     (SequenceClassicationLightningModule.target b)),
               with_logs s [loss_entry "valid_loss" l false true false]))
  /\ (forall (L : Type) (l : R) (lg : tensor R) (tp : tensor L),
         keys (mkOut (Some l) lg tp) = ["loss"; "logits"; "true_preds"]
         /\ keys (mkOut None lg tp) = ["logits"; "true_preds"])
  /\ (forall (St B O : Type) (step : B -> nat -> M St O)
             (Inv : St -> Prop) (batches : list B),
         (forall b i s, In b batches -> Inv s ->
                        exists o s', step b i s = (Ok o, s') /\ Inv s') ->
         forall s : St,
           Inv s ->
           exists outs s',
             run_steps step batches 0 s = (Ok outs, s')
             /\ Inv s'
             /\ length outs = length batches
             /\ forall i b,
                  nth_error batches i = Some b ->
                  exists o s1 s2,
                    nth_error outs i = Some o
                    /\ Inv s1
                    /\ step b i s1 = (Ok o, s2)).
Proof.
  split; [| split; [| split]].
  - intros s b i output Hfwd.
    unfold LightningModuleForTokenClassification.training_step,
      LightningModuleForTokenClassification.validation_step,
      LightningModuleForTokenClassification.test_step,
      LightningModuleForTokenClassification.call_model,
      LightningModuleForAutoModels.training_step,
      LightningModuleForAutoModels.validation_step,
      LightningModuleForAutoModels.test_step,
      LightningModuleForAutoModels.call_model.
    unfold bind, gets, lift, ret, log, modify.
    rewrite Hfwd. repeat split.
  - intros s b i keep lg l Hstep.
    pose proof (binary_shared_step_state b keep s) as Hstate.
    unfold SequenceClassicationLightningModule.training_step,
      SequenceClassicationLightningModule.validation_step.
    unfold bind.
    destruct (SequenceClassicationLightningModule.shared_step b keep s)
      as [r s1].
    cbn [fst snd] in Hstep, Hstate. subst r s1.
    split; reflexivity.
  - intros L l lg tp. split; reflexivity.
  - intros St B O step Inv batches Hstep s Hs.
    apply (@run_steps_buffer St B O step Inv batches Hstep 0%nat s Hs).
Qed.

Lemma step_outputs_and_buffer_witness :
  LightningModuleForTokenClassification.validation_step batch0 0 module0
  = (Ok (buffered_entry false
           (mkOutput 0%R (mkTensor [1; 3]%nat [0; 1; 0]%R)) batch0),
     with_logs module0 [loss_entry "valid_loss" 0%R false true true]).
Proof.
  apply (proj1 step_outputs_and_buffer module0 batch0 0%nat
           (mkOutput 0%R (mkTensor [1; 3]%nat [0; 1; 0]%R))).
  reflexivity.
Defined.

(** A validation step that returns: its dict has no loss key. *)
Lemma validation_step_returns_no_loss :
  fst (LightningModuleForTokenClassification.validation_step batch0 0
         module0)
  = Ok (mkOut None (mkTensor [1; 3]%nat [0; 1; 0]%R)
              (mkTensor [1]%nat [1%Z]))
  /\ keys (mkOut None (mkTensor [1; 3]%nat [0; 1; 0]%R)
                 (mkTensor [1]%nat [1%Z]))
     = ["logits"; "true_preds"]
  /\ ~ In "loss"
        (keys (mkOut None (mkTensor [1; 3]%nat [0; 1; 0]%R)
                     (mkTensor [1]%nat [1%Z]))).
Proof.
  split; [reflexivity |]. split; [reflexivity |].
  simpl. intros [H | [H | []]]; discriminate H.
Qed.

(** * Further properties of the modules *)

(** ** The binary module: predictions, loss, failures *)

(** X1. Outside the narrow band below zero where rounding decides the
    comparison, the prediction the binary epoch ends derive from a logit
    is the sign test of the logit: sigmoid(x) >= 0.5 exactly when
    x >= 0. *)
Theorem binary_prediction_is_sign_test (logits : tensor R) :
  Forall outside_rounding_band (data logits) ->
  ge_half (sigmoid logits)
  = tmap (fun x => if Rle_dec 0 x then true else false) logits.
Proof.
  intros _. unfold ge_half, sigmoid. rewrite tmap_tmap.
  unfold tmap. f_equal. apply map_ext. exact ge_half_sigmoid.
Qed.

Lemma binary_prediction_is_sign_test_witness :
  ge_half (sigmoid (mkTensor [3]%nat [1 / 4; - (1 / 4); 0]%R))
  = mkTensor [3]%nat [true; false; true].
Proof.
  rewrite binary_prediction_is_sign_test.
  - unfold tmap. cbn [shape data map]. decide_order. reflexivity.
  - unfold outside_rounding_band. cbn [data].
    constructor; [left; lra |]. constructor; [right; lra |].
    constructor; [left; lra |]. constructor.
Defined.

Lemma sigmoid1_below_1 (x : R) : (sigmoid1 x < 1)%R.
Proof.
  destruct (sigmoid1_inv x) as [Hinv Hpos].
  pose proof (exp_pos (- x)). nra.
Qed.

Lemma ln_nonpos (y : R) : (0 < y <= 1)%R -> (ln y <= 0)%R.
Proof.
  intros [Hpos [Hlt | ->]].
  - rewrite <- ln_1. left. now apply ln_increasing.
  - rewrite ln_1. lra.
Qed.

Lemma bce1_nonneg (x t : R) : (0 <= t <= 1)%R -> (0 <= bce1 x t)%R.
Proof.
  intro Ht. unfold bce1.
  destruct (sigmoid1_inv x) as [_ Hpos].
  pose proof (sigmoid1_below_1 x) as Hlt.
  assert (ln (sigmoid1 x) <= 0)%R as H1 by (apply ln_nonpos; lra).
  assert (ln (1 - sigmoid1 x) <= 0)%R as H2 by (apply ln_nonpos; lra).
  nra.
Qed.

Lemma Rsum_nonneg (l : list R) :
  Forall (fun v => 0 <= v)%R l -> (0 <= Rsum l)%R.
Proof.
  induction 1 as [| v l Hv _ IH]; simpl; lra.
Qed.

Lemma mean_nonneg (l : list R) :
  Forall (fun v => 0 <= v)%R l -> (0 <= mean l)%R.
Proof.
  intro H. unfold mean, Rdiv.
  destruct l as [| v l].
  - simpl. lra.
  - apply Rmult_le_pos; [now apply Rsum_nonneg |].
    left. apply Rinv_0_lt_compat. apply lt_0_INR. simpl. lia.
Qed.

(** X2. Whenever the loss of the binary module is computed for a
    non-empty batch with targets in [0, 1], its value is not negative. *)
Theorem binary_loss_nonnegative (logits targets : tensor R) (l : R) :
  data logits <> [] ->
  data targets <> [] ->
  Forall (fun t => 0 <= t <= 1)%R (data targets) ->
  SequenceClassicationLightningModule.loss logits targets = Ok l ->
  (0 <= l)%R.
Proof.
  intros _ _ Ht Hloss.
  unfold SequenceClassicationLightningModule.loss, BCEWithLogitsLoss in Hloss.
  destruct (shape_eqb (shape targets) (shape logits)); [| discriminate].
  inversion Hloss; subst l. clear Hloss.
  apply mean_nonneg, Forall_map, Forall_forall.
  intros [x t] Hin. cbn [fst snd].
  apply bce1_nonneg.
  apply in_combine_r in Hin.
  now apply (proj1 (Forall_forall _ _) Ht).
Qed.

Lemma binary_loss_nonnegative_witness :
  (0 <= mean (map (fun xt => bce1 (fst xt) (snd xt))
                  (combine [2; -2]%R [1; 0]%R)))%R.
Proof.
  apply (@binary_loss_nonnegative (mkTensor [2]%nat [2; -2]%R)
           (mkTensor [2]%nat [1; 0]%R)).
  - discriminate.
  - discriminate.
  - simpl. constructor; [lra |]. constructor; [lra |]. constructor.
  - reflexivity.
Defined.

(** X3. A batch of one sample whose target is zero-dimensional passes the
    step: the squeezed logits are zero-dimensional as well and the loss
    accepts the pair. *)
Theorem scalar_target_passes_step
  (s : SequenceClassicationLightningModule.module)
  (b : SequenceClassicationLightningModule.batch) (keep : nat -> bool)
  (sequence_output pooled : tensor R) :
  in_features (MainModel.linear (model s)) = 768%nat ->
  out_features (MainModel.linear (model s)) = 1%nat ->
  am_forward (MainModel.base (model s))
    (SequenceClassicationLightningModule.ids_seq b)
    (SequenceClassicationLightningModule.attn_masks b) None
  = Ok (sequence_output, pooled) ->
  shape pooled = [1; 768]%nat ->
  shape (SequenceClassicationLightningModule.target b) = [] ->
  exists (logits : tensor R) (l : R),
    SequenceClassicationLightningModule.shared_step b keep s
    = (Ok (logits, l), s)
    /\ shape logits = [].
Proof.
  intros Hin Hout Henc Hshape Htarget.
  destruct (binary_forward_shape s b keep Hin Hout Henc Hshape)
    as [out [Hfwd Hout_shape]].
  pose proof (squeeze_column out Hout_shape) as Hsq. cbn [Nat.eqb] in Hsq.
  exists (squeeze out). eexists. split; [| exact Hsq].
  unfold SequenceClassicationLightningModule.shared_step,
    SequenceClassicationLightningModule.loss, BCEWithLogitsLoss.
  unfold bind, gets, lift, ret.
  rewrite Hfwd, Hsq, Htarget, shape_eqb_refl. reflexivity.
Qed.

Lemma scalar_target_passes_step_witness :
  exists (logits : tensor R) (l : R),
    SequenceClassicationLightningModule.shared_step scalar_target_batch
      keep_all binary_module0
    = (Ok (logits, l), binary_module0)
    /\ shape logits = [].
Proof.
  apply (scalar_target_passes_step binary_module0 scalar_target_batch
           keep_all
           (sequence_output := mkTensor [1; 4; 768]%nat [])
           (pooled := mkTensor [1; 768]%nat (repeat 0%R (1 * 768))));
    reflexivity.
Defined.

Lemma cat_shape_zero_dim (ss : list (list nat)) :
  In [] ss ->
  forall acc, cat_shape acc ss = Raise RuntimeError.
Proof.
  induction ss as [| s ss IH]; intros Hin acc; [contradiction |].
  destruct s as [| d tl]; [reflexivity |].
  destruct Hin as [Heq | Hin]; [discriminate |].
  cbn [cat_shape].
  destruct (is_skipped (d :: tl)); [now apply IH |].
  destruct acc as [[| d0 tl0] |]; try reflexivity.
  - destruct (shape_eqb tl tl0); [now apply IH | reflexivity].
  - now apply IH.
Qed.

Lemma cat_zero_dim {A} (ts : list (tensor A)) :
  Exists (fun t => shape t = []) ts ->
  cat ts = Raise RuntimeError.
Proof.
  intro Hex.
  assert (ts <> []) as Hne by (intros ->; inversion Hex).
  rewrite (cat_nonempty Hne).
  rewrite cat_shape_zero_dim; [reflexivity |].
  apply Exists_exists in Hex. destruct Hex as [t [Hin Ht]].
  apply in_map_iff. now exists t.
Qed.

(** X4. A buffer holding an entry with zero-dimensional logits makes both
    epoch ends of the binary module raise a [RuntimeError] from the
    concatenation, and nothing is logged. *)
Theorem zero_dim_logits_break_epoch_end
  (outs : list (step_output R))
  (s : SequenceClassicationLightningModule.module) :
  Exists (fun o => shape (out_logits o) = []) outs ->
  SequenceClassicationLightningModule.training_epoch_end outs s
  = (Raise RuntimeError, s)
  /\ SequenceClassicationLightningModule.validation_epoch_end outs s
     = (Raise RuntimeError, s).
Proof.
  intro Hex.
  assert (SequenceClassicationLightningModule.epoch_arrays outs
          = Raise RuntimeError) as Harr.
  { unfold SequenceClassicationLightningModule.epoch_arrays.
    rewrite cat_zero_dim; [reflexivity |].
    apply Exists_exists in Hex. destruct Hex as [o [Hin Ho]].
    apply Exists_exists. exists (out_logits o). split; [| exact Ho].
    now apply in_map. }
  unfold SequenceClassicationLightningModule.training_epoch_end,
    SequenceClassicationLightningModule.validation_epoch_end,
    SequenceClassicationLightningModule.epoch_end.
  unfold bind, lift. rewrite Harr. split; reflexivity.
Qed.

Lemma zero_dim_logits_break_epoch_end_witness :
  SequenceClassicationLightningModule.training_epoch_end
    [mkOut (Some 0%R) (mkTensor [] [2%R]) (mkTensor [] [1%R])]
    binary_module0
  = (Raise RuntimeError, binary_module0).
Proof.
  apply (@zero_dim_logits_break_epoch_end
           [mkOut (Some 0%R) (mkTensor [] [2%R]) (mkTensor [] [1%R])]
           binary_module0).
  constructor. reflexivity.
Defined.

(** ** Failures of the step hooks *)

(** X5. When the forward pass of the network raises, every step hook
    raises the same exception and leaves the module object as it was: no
    loss is logged. For the binary module the network is the encoder
    followed by dropout and the projection, so a failure of either
    counts. *)
Theorem step_propagates_forward_error :
  (forall (s : LightningModule PreTrainedModel) (b : batch) (i : nat)
          (e : exn),
      pm_forward (model s) b = Raise e ->
      LightningModuleForTokenClassification.training_step b i s
      = (Raise e, s)
      /\ LightningModuleForTokenClassification.validation_step b i s
         = (Raise e, s)
      /\ LightningModuleForTokenClassification.test_step b i s
         = (Raise e, s)
      /\ LightningModuleForAutoModels.training_step b i s = (Raise e, s)
      /\ LightningModuleForAutoModels.validation_step b i s = (Raise e, s)
      /\ LightningModuleForAutoModels.test_step b i s = (Raise e, s))
  /\ (forall (s : SequenceClassicationLightningModule.module)
             (b : SequenceClassicationLightningModule.batch) (i : nat)
             (keep : nat -> bool) (e : exn),
         MainModel.forward (model s) (training s) keep
           (SequenceClassicationLightningModule.ids_seq b)
           (SequenceClassicationLightningModule.attn_masks b) None
         = Raise e ->
         SequenceClassicationLightningModule.training_step b i keep s
         = (Raise e, s)
         /\ SequenceClassicationLightningModule.validation_step b i keep s
            = (Raise e, s)).
Proof.
  split.
  - intros s b i e Hfwd.
    unfold LightningModuleForTokenClassification.training_step,
      LightningModuleForTokenClassification.validation_step,
      LightningModuleForTokenClassification.test_step,
      LightningModuleForTokenClassification.call_model,
      LightningModuleForAutoModels.training_step,
      LightningModuleForAutoModels.validation_step,
      LightningModuleForAutoModels.test_step,
      LightningModuleForAutoModels.call_model.
    unfold bind, gets, lift. rewrite Hfwd. repeat split.
  - intros s b i keep e Hfwd.
    unfold SequenceClassicationLightningModule.training_step,
      SequenceClassicationLightningModule.validation_step,
      SequenceClassicationLightningModule.shared_step.
    unfold bind, gets, lift. rewrite Hfwd. split; reflexivity.
Qed.

Lemma step_propagates_forward_error_witness :
  LightningModuleForTokenClassification.training_step batch0 0
    failing_module
  = (Raise RuntimeError, failing_module)
  /\ SequenceClassicationLightningModule.training_step
       (binary_batch 2 [1%R; 0%R]) 0 keep_all wide_binary_module
     = (Raise RuntimeError, wide_binary_module).
Proof.
  split.
  - apply (proj1 step_propagates_forward_error failing_module batch0 0%nat
             RuntimeError).
    reflexivity.
  - apply (proj2 step_propagates_forward_error wide_binary_module
             (binary_batch 2 [1%R; 0%R]) 0%nat keep_all RuntimeError).
    reflexivity.
Defined.

(** ** Epoch ends: what reaches the logging sink *)



(** X7. An epoch without batches: every epoch-end hook raises the
    [RuntimeError] of concatenating an empty list, and logs nothing. *)
Theorem epoch_end_empty_buffer :
  (forall s : SequenceClassicationLightningModule.module,
      SequenceClassicationLightningModule.training_epoch_end [] s
      = (Raise RuntimeError, s)
      /\ SequenceClassicationLightningModule.validation_epoch_end [] s
         = (Raise RuntimeError, s))
  /\ (forall s : LightningModule PreTrainedModel,
         LightningModuleForTokenClassification.training_epoch_end [] s
         = (Raise RuntimeError, s)
         /\ LightningModuleForTokenClassification.validation_epoch_end [] s
            = (Raise RuntimeError, s)
         /\ LightningModuleForTokenClassification.test_epoch_end [] s
            = (Raise RuntimeError, s)
         /\ LightningModuleForAutoModels.training_epoch_end [] s
            = (Raise RuntimeError, s)
         /\ LightningModuleForAutoModels.validation_epoch_end [] s
            = (Raise RuntimeError, s)
         /\ LightningModuleForAutoModels.test_epoch_end [] s
            = (Raise RuntimeError, s)).
Proof.
  split; intro s; repeat split.
Qed.

(** ** Epoch ends of the token and Auto modules: lengths and sentinels *)

Lemma token_hooks_on_arrays (outs : list (step_output Z))
  (s : LightningModule PreTrainedModel) (P T : list Z) :
  gather_pred outs = Ok P ->
  gather_true outs = Ok T ->
  length P = length T ->
  LightningModuleForTokenClassification.training_epoch_end outs s
  = (Ok tt,
     with_logs s
       [ metric_entry "train_acc"
           (metrics.accuracy_value (map fst (kept_pairs T P))
                                   (map snd (kept_pairs T P)));
         metric_entry "train_f1"
           (metrics.f1_weighted_value (map fst (kept_pairs T P))
                                      (map snd (kept_pairs T P))) ])
  /\ LightningModuleForTokenClassification.validation_epoch_end outs s
     = (Ok tt,
        with_logs s
          [ metric_entry "val_acc" (metrics.accuracy_value T P);
            metric_entry "val_f1" (metrics.f1_weighted_value T P) ]).
Proof.
  intros HP HT Hlen.
  unfold LightningModuleForTokenClassification.training_epoch_end,
    LightningModuleForTokenClassification.validation_epoch_end.
  run_hook. rewrite HP, HT.
  rewrite (bool_index_true T P Hlen), (bool_index_pred T P Hlen).
  rewrite (accuracy_score_ok _ _ (kept_pairs_lengths T P)).
  rewrite (f1_score_weighted_ok _ _ (kept_pairs_lengths T P)).
  rewrite (accuracy_score_ok T P (eq_sym Hlen)).
  rewrite (f1_score_weighted_ok T P (eq_sym Hlen)).
  rewrite <- !app_assoc. split; reflexivity.
Qed.

Lemma bool_index_mismatch {A} (a : list A) :
  forall mask : list bool,
    length a <> length mask -> bool_index a mask = Raise IndexError.
Proof.
  induction a as [| x a IH]; intros [| b mask] Hlen; simpl in *;
    try congruence.
  rewrite IH by lia. reflexivity.
Qed.

Lemma length_ne (T : list Z) (v : Z) : length (ne T v) = length T.
Proof. unfold ne. apply length_map. Qed.

(** X8. When the buffered predictions and labels differ in number, the
    epoch ends that index with the sentinel mask (the train hook of the
    token module, all three hooks of the Auto module) raise [IndexError],
    while the validation and test hooks of the token module, which skip
    the mask, raise the [ValueError] of the metric; nothing is logged. *)
Theorem epoch_end_length_mismatch (outs : list (step_output Z))
  (s : LightningModule PreTrainedModel) (P T : list Z) :
  gather_pred outs = Ok P ->
  gather_true outs = Ok T ->
  length P <> length T ->
  LightningModuleForTokenClassification.training_epoch_end outs s
  = (Raise IndexError, s)
  /\ LightningModuleForTokenClassification.validation_epoch_end outs s
     = (Raise ValueError, s)
  /\ LightningModuleForTokenClassification.test_epoch_end outs s
     = (Raise ValueError, s)
  /\ LightningModuleForAutoModels.training_epoch_end outs s
     = (Raise IndexError, s)
  /\ LightningModuleForAutoModels.validation_epoch_end outs s
     = (Raise IndexError, s)
  /\ LightningModuleForAutoModels.test_epoch_end outs s
     = (Raise IndexError, s).
Proof.
  intros HP HT Hlen.
  unfold LightningModuleForTokenClassification.training_epoch_end,
    LightningModuleForTokenClassification.validation_epoch_end,
    LightningModuleForTokenClassification.test_epoch_end,
    LightningModuleForAutoModels.training_epoch_end,
    LightningModuleForAutoModels.validation_epoch_end,
    LightningModuleForAutoModels.test_epoch_end.
  run_hook. rewrite HP, HT.
  rewrite (bool_index_true T T eq_refl).
  rewrite (@bool_index_mismatch Z P (ne T (-100)))
    by (rewrite length_ne; exact Hlen).
  unfold metrics.accuracy_score.
  replace (length T =? length P)%nat with false
    by (symmetry; apply Nat.eqb_neq; congruence).
  repeat split.
Qed.

Lemma mismatched_scenario_pred :
  gather_pred mismatched_scenario = Ok [1; 0]%Z.
Proof.
  unfold gather_pred, mismatched_scenario, argmax_last.
  cbn -[Rlt_dec IZR]. decide_order. reflexivity.
Qed.

Lemma epoch_end_length_mismatch_witness :
  LightningModuleForTokenClassification.training_epoch_end
    mismatched_scenario module0
  = (Raise IndexError, module0)
  /\ LightningModuleForTokenClassification.validation_epoch_end
       mismatched_scenario module0
     = (Raise ValueError, module0).
Proof.
  destruct (@epoch_end_length_mismatch mismatched_scenario module0
              [1; 0]%Z [1; 0; 1]%Z mismatched_scenario_pred eq_refl)
    as (H1 & H2 & _).
  - simpl. lia.
  - split; assumption.
Defined.

Lemma kept_pairs_all (T P : list Z) :
  Forall (fun t => t <> (-100)%Z) T ->
  kept_pairs T P = combine T P.
Proof.
  unfold kept_pairs. intro H. revert P.
  induction H as [| t T Ht _ IH]; intros [| p P]; try reflexivity.
  cbn [combine filter fst].
  apply Z.eqb_neq in Ht. rewrite Ht. cbn [negb]. now rewrite IH.
Qed.

Lemma map_fst_combine_eq {A B} (a : list A) :
  forall b : list B, length b = length a -> map fst (combine a b) = a.
Proof.
  induction a as [| x a IH]; intros [| y b] H; try discriminate;
    [reflexivity |].
  simpl. rewrite IH by (simpl in H; lia). reflexivity.
Qed.

Lemma map_snd_combine_eq {A B} (a : list A) :
  forall b : list B, length b = length a -> map snd (combine a b) = b.
Proof.
  induction a as [| x a IH]; intros [| y b] H; try discriminate;
    [reflexivity |].
  simpl. rewrite IH by (simpl in H; lia). reflexivity.
Qed.

(** X9. When no buffered label is the sentinel, the asymmetry of the token
    module disappears: the train hook logs the accuracy and weighted F1
    of the full arrays, the very values the validation hook logs. *)
Theorem token_paths_agree_without_sentinel (outs : list (step_output Z))
  (s : LightningModule PreTrainedModel) (P T : list Z) :
  gather_pred outs = Ok P ->
  gather_true outs = Ok T ->
  length P = length T ->
  Forall (fun t => t <> (-100)%Z) T ->
  LightningModuleForTokenClassification.training_epoch_end outs s
  = (Ok tt,
     with_logs s
       [ metric_entry "train_acc" (metrics.accuracy_value T P);
         metric_entry "train_f1" (metrics.f1_weighted_value T P) ])
  /\ LightningModuleForTokenClassification.validation_epoch_end outs s
     = (Ok tt,
        with_logs s
          [ metric_entry "val_acc" (metrics.accuracy_value T P);
            metric_entry "val_f1" (metrics.f1_weighted_value T P) ]).
Proof.
  intros HP HT Hlen Hno.
  destruct (token_hooks_on_arrays outs s HP HT Hlen) as [Htrain Hval].
  rewrite Htrain, Hval.
  rewrite (kept_pairs_all P Hno).
  rewrite (map_fst_combine_eq T P Hlen), (map_snd_combine_eq T P Hlen).
  split; reflexivity.
Qed.

Lemma no_sentinel_scenario_pred :
  gather_pred no_sentinel_scenario = Ok [1; 0]%Z.
Proof.
  unfold gather_pred, no_sentinel_scenario, argmax_last.
  cbn -[Rlt_dec IZR]. decide_order. reflexivity.
Qed.

Lemma token_paths_agree_without_sentinel_witness :
  LightningModuleForTokenClassification.training_epoch_end
    no_sentinel_scenario module0
  = (Ok tt,
     with_logs module0
       [ metric_entry "train_acc" (metrics.Score (1 # 2));
         metric_entry "train_f1" (metrics.Score (2 # 3)) ]).
Proof.
  apply (@token_paths_agree_without_sentinel no_sentinel_scenario module0
           [1; 0]%Z [1; 1]%Z no_sentinel_scenario_pred eq_refl eq_refl).
  constructor; [discriminate |]. constructor; [discriminate |]. constructor.
Defined.

Lemma kept_pairs_none (T P : list Z) :
  Forall (fun t => t = (-100)%Z) T ->
  kept_pairs T P = [].
Proof.
  unfold kept_pairs. intro H. revert P.
  induction H as [| t T -> _ IH]; intros [| p P]; try reflexivity.
  cbn [combine filter fst Z.eqb negb]. apply IH.
Qed.

(** X10. When every buffered label is the sentinel, the filtering hooks
    are left with empty arrays: they return, logging [nan] as accuracy
    and, as weighted F1, the value the metric gives to two empty arrays
    (the same in all four hooks). *)
Theorem all_sentinel_logs_nan (outs : list (step_output Z))
  (s : LightningModule PreTrainedModel) (P T : list Z) :
  gather_pred outs = Ok P ->
  gather_true outs = Ok T ->
  length P = length T ->
  Forall (fun t => t = (-100)%Z) T ->
  exists f1 : metrics.score,
    metrics.f1_score_weighted [] [] = Ok f1
    /\ LightningModuleForTokenClassification.training_epoch_end outs s
       = (Ok tt,
          with_logs s
            [ metric_entry "train_acc" metrics.NaN;
              metric_entry "train_f1" f1 ])
    /\ LightningModuleForAutoModels.training_epoch_end outs s
       = (Ok tt,
          with_logs s
            [ metric_entry "train_acc" metrics.NaN;
              metric_entry "train_f1" f1 ])
    /\ LightningModuleForAutoModels.validation_epoch_end outs s
       = (Ok tt,
          with_logs (with_print s [mkPrinted "val" metrics.NaN f1])
            [ metric_entry "val_acc" metrics.NaN;
              metric_entry "val_f1" f1 ])
    /\ LightningModuleForAutoModels.test_epoch_end outs s
       = (Ok tt,
          with_logs (with_print s [mkPrinted "test" metrics.NaN f1])
            [ metric_entry "test_acc" metrics.NaN;
              metric_entry "test_f1" f1 ]).
Proof.
  intros HP HT Hlen Hall.
  exists (metrics.f1_weighted_value [] []).
  split; [reflexivity |].
  unfold LightningModuleForTokenClassification.training_epoch_end,
    LightningModuleForAutoModels.training_epoch_end,
    LightningModuleForAutoModels.validation_epoch_end,
    LightningModuleForAutoModels.test_epoch_end.
  run_hook. rewrite HP, HT.
  rewrite (bool_index_true T P Hlen), (bool_index_pred T P Hlen).
  rewrite (kept_pairs_none P Hall).
  cbn [map rbind].
  change (metrics.accuracy_score [] []) with (Ok metrics.NaN).
  change (metrics.f1_score_weighted [] [])
    with (Ok (metrics.f1_weighted_value [] [])).
  cbv iota. rewrite <- !app_assoc. repeat split.
Qed.

Lemma all_sentinel_scenario_pred :
  gather_pred all_sentinel_scenario = Ok [1; 0]%Z.
Proof.
  unfold gather_pred, all_sentinel_scenario, argmax_last.
  cbn -[Rlt_dec IZR]. decide_order. reflexivity.
Qed.

Lemma all_sentinel_logs_nan_witness :
  exists f1 : metrics.score,
    LightningModuleForTokenClassification.training_epoch_end
      all_sentinel_scenario module0
    = (Ok tt,
       with_logs module0
         [ metric_entry "train_acc" metrics.NaN;
           metric_entry "train_f1" f1 ]).
Proof.
  destruct (@all_sentinel_logs_nan all_sentinel_scenario module0
              [1; 0]%Z [-100; -100]%Z all_sentinel_scenario_pred eq_refl
              eq_refl)
    as (f1 & _ & Htrain & _).
  - constructor; [reflexivity |]. constructor; [reflexivity |]. constructor.
  - now exists f1.
Defined.

(** ** What the gathered arrays hold *)

Lemma rmap_Forall_in {A B} (f : A -> result B) (Q : B -> Prop)
  (l : list A) :
  (forall x y, In x l -> f x = Ok y -> Q y) ->
  forall ys, rmap f l = Ok ys -> Forall Q ys.
Proof.
  induction l as [| x l IH]; intros Hf ys Hr; simpl in Hr.
  - inversion Hr. constructor.
  - destruct (f x) as [y | e] eqn:Hx; [| discriminate].
    cbn [rbind] in Hr.
    destruct (rmap f l) as [ys' | e] eqn:Hl; [| discriminate].
    inversion Hr; subst ys. constructor.
    + apply (Hf x y); [now left | exact Hx].
    + apply IH; [| reflexivity].
      intros x' y' Hin. apply Hf. now right.
Qed.

Lemma cat_data {A} (ts : list (tensor A)) (t : tensor A) :
  cat ts = Ok t -> data t = concat (map (@data A) ts).
Proof.
  unfold cat. destruct ts as [| t0 ts]; [discriminate |].
  destruct (cat_shape None (map (@shape A) (t0 :: ts))) as [sh | e];
    [| discriminate].
  cbn [rbind]. intro H. inversion H. reflexivity.
Qed.

Lemma argmax_from_range (l : list R) :
  forall best besti i,
    (besti < i)%nat ->
    (argmax_from best besti i l < i + length l)%nat.
Proof.
  induction l as [| x l IH]; intros best besti i Hlt; simpl.
  - lia.
  - destruct (Rlt_dec best x).
    + specialize (IH x i (S i)). lia.
    + specialize (IH best besti (S i)). lia.
Qed.

Lemma argmax_row_range (l : list R) (C : nat) :
  (length l <= S C)%nat -> (argmax_row l < S C)%nat.
Proof.
  destruct l as [| x l]; simpl; intro H; [lia |].
  pose proof (@argmax_from_range l x 0%nat 1%nat). lia.
Qed.

Lemma rows_of_length {A} (n d : nat) :
  forall l : list A, length (rows_of n d l) = n.
Proof.
  induction n as [| n IH]; intro l; simpl; [reflexivity | now rewrite IH].
Qed.

Lemma rows_of_row_length {A} (n d : nat) :
  forall l : list A, Forall (fun row => length row <= d)%nat (rows_of n d l).
Proof.
  induction n as [| n IH]; intro l; simpl; constructor.
  - apply firstn_le_length.
  - apply IH.
Qed.

Lemma argmax_last_classes (t : tensor R) (lead : list nat) (C : nat) :
  shape t = (lead ++ [S C])%list ->
  argmax_last t
  = Ok (mkTensor lead
          (map (fun row => Z.of_nat (argmax_row row))
               (rows_of (numel lead) (S C) (data t)))).
Proof.
  intro H. unfold argmax_last. rewrite H, rev_app_distr.
  cbn [rev app]. now rewrite rev_involutive.
Qed.

Lemma gather_pred_Forall (Q : Z -> Prop) (outs : list (step_output Z))
  (P : list Z) :
  (forall o a, In o outs -> argmax_last (out_logits o) = Ok a ->
               Forall Q (data a)) ->
  gather_pred outs = Ok P ->
  Forall Q P.
Proof.
  intros HQ Hg. unfold gather_pred in Hg.
  destruct (rmap _ outs) as [ts | e] eqn:Hr; [| discriminate].
  cbn [rbind] in Hg.
  destruct (cat ts) as [t | e] eqn:Hc; [| discriminate].
  cbn [rbind] in Hg. inversion Hg; subst P. unfold reshape_flat.
  rewrite (cat_data _ Hc).
  assert (Forall (fun y => Forall Q (data y)) ts) as Hts.
  { eapply (@rmap_Forall_in _ _ _ (fun y => Forall Q (data y)) outs);
      [| exact Hr].
    intros o y Hin Ho. cbv beta in Ho.
    destruct (argmax_last (out_logits o)) as [a | e] eqn:Ha;
      [| discriminate].
    cbn [rbind] in Ho. inversion Ho; subst y. cbn [view_flat data].
    now apply (HQ o). }
  clear Hc Hr. induction Hts; simpl; [constructor |].
  apply Forall_app. split; assumption.
Qed.

(** X11. When every buffered logits tensor has [C] entries along its last
    dimension, each prediction the epoch ends derive is a class index
    between 0 and [C - 1]. *)
Theorem predictions_are_class_indices (outs : list (step_output Z))
  (P : list Z) (C : nat) :
  Forall (fun o => exists lead,
              shape (out_logits o) = (lead ++ [S C])%list) outs ->
  gather_pred outs = Ok P ->
  Forall (fun p => 0 <= p < Z.of_nat (S C))%Z P.
Proof.
  intros Hshape Hg.
  apply (@gather_pred_Forall _ outs P); [| exact Hg].
  intros o a Hin Ha.
  destruct (proj1 (Forall_forall _ _) Hshape o Hin) as [lead Hlead].
  rewrite (@argmax_last_classes _ lead C Hlead) in Ha.
  inversion Ha; subst a. cbn [data].
  apply Forall_map.
  eapply Forall_impl; [| apply rows_of_row_length].
  intros row Hrow. cbn beta.
  pose proof (@argmax_row_range row C Hrow). lia.
Qed.

Lemma predictions_are_class_indices_witness :
  Forall (fun p => 0 <= p < Z.of_nat 2)%Z [1; 0; 1]%Z.
Proof.
  apply (@predictions_are_class_indices token_scenario [1; 0; 1]%Z 1%nat).
  - constructor; [| constructor]. now exists [1; 3]%nat.
  - exact token_scenario_pred.
Defined.

Lemma gather_pred_nonneg (outs : list (step_output Z)) (P : list Z) :
  gather_pred outs = Ok P -> Forall (fun p => 0 <= p)%Z P.
Proof.
  apply (@gather_pred_Forall _ outs P).
  intros o a _ Ha. unfold argmax_last in Ha.
  destruct (rev (shape (out_logits o))) as [| [| d] rinit];
    inversion Ha; subst a; cbn [data].
  - constructor; [lia | constructor].
  - apply Forall_map, Forall_forall. intros row _. lia.
Qed.

Lemma agree_count_kept (T : list Z) :
  forall P : list Z,
    Forall (fun p => 0 <= p)%Z P ->
    metrics.count_if metrics.agree (combine T P)
    = metrics.count_if metrics.agree (kept_pairs T P).
Proof.
  unfold metrics.count_if, kept_pairs.
  induction T as [| t T IH]; intros [| p P] HP; try reflexivity.
  inversion HP as [| ? ? Hp HP']; subst.
  cbn [combine filter fst].
  destruct (t =? -100)%Z eqn:Ht; cbn [negb].
  - apply Z.eqb_eq in Ht. subst t.
    replace (metrics.agree (-100, p)%Z) with false
      by (symmetry; apply Z.eqb_neq; cbn [fst snd]; lia).
    now apply IH.
  - cbn [filter]. destruct (metrics.agree (t, p)); simpl;
      now rewrite (IH P HP').
Qed.

Lemma combine_fst_snd {A B} (l : list (A * B)) :
  combine (map fst l) (map snd l) = l.
Proof.
  induction l as [| [a b] l IH]; simpl; [reflexivity | now rewrite IH].
Qed.

Lemma accuracy_value_nonempty (a b : list Z) :
  a <> [] ->
  metrics.accuracy_value a b
  = metrics.Score
      (metrics.frac (metrics.count_if metrics.agree (combine a b))
                    (length a)).
Proof. destruct a; [congruence | reflexivity]. Qed.

(** X12. In the validation hook of the token module a sentinel position can
    never count as correct, because a prediction is never negative: the
    hook counts exactly the correct positions the train hook counts, and
    divides by the number of all positions instead of the number of
    kept ones. *)
Theorem validation_counts_sentinel_as_wrong (outs : list (step_output Z))
  (s : LightningModule PreTrainedModel) (P T : list Z) :
  gather_pred outs = Ok P ->
  gather_true outs = Ok T ->
  length P = length T ->
  kept_pairs T P <> [] ->
  let kept := kept_pairs T P in
  let correct := metrics.count_if metrics.agree kept in
  (length kept <= length T)%nat
  /\ LightningModuleForTokenClassification.training_epoch_end outs s
     = (Ok tt,
        with_logs s
          [ metric_entry "train_acc"
              (metrics.Score (metrics.frac correct (length kept)));
            metric_entry "train_f1"
              (metrics.f1_weighted_value (map fst kept) (map snd kept)) ])
  /\ LightningModuleForTokenClassification.validation_epoch_end outs s
     = (Ok tt,
        with_logs s
          [ metric_entry "val_acc"
              (metrics.Score (metrics.frac correct (length T)));
            metric_entry "val_f1" (metrics.f1_weighted_value T P) ]).
Proof.
  intros HP HT Hlen Hkept kept correct. subst correct kept.
  destruct (token_hooks_on_arrays outs s HP HT Hlen) as [Htrain Hval].
  rewrite Htrain, Hval.
  assert (T <> []) as HT_ne.
  { intros ->. apply Hkept. reflexivity. }
  split.
  - unfold kept_pairs.
    etransitivity; [apply filter_length_le |].
    rewrite length_combine. lia.
  - rewrite (@accuracy_value_nonempty T P HT_ne).
    rewrite accuracy_value_nonempty
      by (destruct (kept_pairs T P); [congruence | discriminate]).
    rewrite combine_fst_snd, length_map.
    rewrite (@agree_count_kept T P (@gather_pred_nonneg outs P HP)).
    split; reflexivity.
Qed.

Lemma validation_counts_sentinel_as_wrong_witness :
  LightningModuleForTokenClassification.validation_epoch_end
    token_scenario module0
  = (Ok tt,
     with_logs module0
       [ metric_entry "val_acc"
           (metrics.Score
              (metrics.frac
                 (metrics.count_if metrics.agree
                    (kept_pairs [1; -100; 0]%Z [1; 0; 1]%Z))
                 3));
         metric_entry "val_f1"
           (metrics.f1_weighted_value [1; -100; 0]%Z [1; 0; 1]%Z) ]).
Proof.
  apply (@validation_counts_sentinel_as_wrong token_scenario module0
           [1; 0; 1]%Z [1; -100; 0]%Z token_scenario_pred eq_refl eq_refl).
  discriminate.
Defined.

(** ** Well-shaped buffers are always scored *)

Lemma auto_hooks_on_arrays (outs : list (step_output Z))
  (s : LightningModule PreTrainedModel) (P T : list Z) :
  gather_pred outs = Ok P ->
  gather_true outs = Ok T ->
  length P = length T ->
  fst (LightningModuleForAutoModels.training_epoch_end outs s) = Ok tt
  /\ fst (LightningModuleForAutoModels.validation_epoch_end outs s) = Ok tt
  /\ fst (LightningModuleForAutoModels.test_epoch_end outs s) = Ok tt
  /\ fst (LightningModuleForTokenClassification.test_epoch_end outs s)
     = Ok tt.
Proof.
  intros HP HT Hlen.
  unfold LightningModuleForAutoModels.training_epoch_end,
    LightningModuleForAutoModels.validation_epoch_end,
    LightningModuleForAutoModels.test_epoch_end,
    LightningModuleForTokenClassification.test_epoch_end.
  run_hook. rewrite HP, HT.
  rewrite (bool_index_true T P Hlen), (bool_index_pred T P Hlen).
  rewrite (accuracy_score_ok _ _ (kept_pairs_lengths T P)).
  rewrite (f1_score_weighted_ok _ _ (kept_pairs_lengths T P)).
  rewrite (accuracy_score_ok T P (eq_sym Hlen)).
  rewrite (f1_score_weighted_ok T P (eq_sym Hlen)).
  repeat split.
Qed.

Lemma rmap_ok_Forall2 {A B} (f : A -> result B) (Rel : A -> B -> Prop)
  (l : list A) :
  Forall (fun x => exists y, f x = Ok y /\ Rel x y) l ->
  exists ys, rmap f l = Ok ys /\ Forall2 Rel l ys.
Proof.
  induction 1 as [| x l [y [Hy Hrel]] _ [ys [Hys HF]]].
  - exists []. split; [reflexivity | constructor].
  - exists (y :: ys). simpl. rewrite Hy. cbn [rbind]. rewrite Hys.
    split; [reflexivity | now constructor].
Qed.

Lemma gather_well_shaped (outs : list (step_output Z)) :
  outs <> [] ->
  Forall well_shaped outs ->
  exists P T : list Z,
    gather_pred outs = Ok P
    /\ gather_true outs = Ok T
    /\ length P = length T
    /\ T = concat (map (fun o => data (out_true_preds o)) outs).
Proof.
  intros Hne Hall.
  set (Rel := fun (o : step_output Z) (y : tensor Z) =>
                (exists n, shape y = [n])
                /\ length (data y) = length (data (out_true_preds o))).
  destruct (@rmap_ok_Forall2 _ _
              (fun out => rbind (argmax_last (out_logits out))
                                (fun a => Ok (view_flat a)))
              Rel outs) as [ys [Hys HF]].
  { eapply Forall_impl; [| exact Hall].
    intros o (lead & C & Hlog & Hlab & Hlen).
    rewrite (@argmax_last_classes _ lead C Hlog). cbn [rbind].
    eexists. split; [reflexivity |].
    split; [now eexists |].
    cbn [view_flat data]. now rewrite length_map, rows_of_length, Hlen. }
  assert (ys <> []) as Hys_ne.
  { intros ->. inversion HF. congruence. }
  destruct (@cat_1d Z ys Hys_ne) as [m Hm].
  { clear - HF. induction HF as [| o y l ys [Hy _] _ IH]; constructor; auto. }
  destruct (@cat_1d Z (map (fun o => view_flat (out_true_preds o)) outs))
    as [k Hk].
  { destruct outs; [congruence | discriminate]. }
  { apply Forall_map, Forall_forall. intros o _. now eexists. }
  exists (concat (map (@data Z) ys)),
    (concat (map (fun o => data (out_true_preds o)) outs)).
  unfold gather_pred, gather_true.
  rewrite Hys. cbn [rbind]. rewrite Hm, Hk. cbn [rbind].
  unfold reshape_flat. cbn [data]. rewrite map_map. cbn [view_flat data].
  repeat split.
  clear - HF. induction HF as [| o y l ys [_ Hlen] _ IH]; [reflexivity |].
  cbn [map concat]. rewrite !length_app. now rewrite Hlen, IH.
Qed.

(** X13. For a non-empty buffer of well-shaped entries (logits over at least
    one class, labels filling the leading dimensions) the predictions
    and the labels are gathered into arrays of the same length, the
    labels in batch order, and every epoch-end hook of the token and of
    the Auto module returns. *)
Theorem well_shaped_buffer_is_scored (outs : list (step_output Z))
  (s : LightningModule PreTrainedModel) :
  outs <> [] ->
  Forall well_shaped outs ->
  exists P T : list Z,
    gather_pred outs = Ok P
    /\ gather_true outs = Ok T
    /\ length P = length T
    /\ T = concat (map (fun o => data (out_true_preds o)) outs)
    /\ fst (LightningModuleForTokenClassification.training_epoch_end outs s)
       = Ok tt
    /\ fst (LightningModuleForTokenClassification.validation_epoch_end
              outs s) = Ok tt
    /\ fst (LightningModuleForTokenClassification.test_epoch_end outs s)
       = Ok tt
    /\ fst (LightningModuleForAutoModels.training_epoch_end outs s) = Ok tt
    /\ fst (LightningModuleForAutoModels.validation_epoch_end outs s)
       = Ok tt
    /\ fst (LightningModuleForAutoModels.test_epoch_end outs s) = Ok tt.
Proof.
  intros Hne Hall.
  destruct (gather_well_shaped Hne Hall) as (P & T & HP & HT & Hlen & HTeq).
  exists P, T.
  destruct (token_hooks_on_arrays outs s HP HT Hlen) as [Htrain Hval].
  destruct (auto_hooks_on_arrays outs s HP HT Hlen)
    as (Ha1 & Ha2 & Ha3 & Ht3).
  rewrite Htrain, Hval.
  repeat split; assumption.
Qed.

Lemma well_shaped_buffer_is_scored_witness :
  exists P T : list Z,
    gather_pred token_scenario = Ok P
    /\ gather_true token_scenario = Ok T
    /\ length P = length T.
Proof.
  destruct (@well_shaped_buffer_is_scored token_scenario module0)
    as (P & T & HP & HT & Hlen & _).
  - discriminate.
  - constructor; [| constructor].
    exists [1; 3]%nat, 1%nat. repeat split.
  - now exists P, T.
Defined.

(** ** The binary head and encoders of another width *)

(** X14. The projection of the binary head is fixed at 768 input features:
    with an encoder whose pooled output has another last dimension the
    forward pass raises a [RuntimeError], in training and in evaluation
    mode alike. *)
Theorem forward_rejects_other_hidden_size
  (from_pretrained : string -> AutoModel)
  (weight0 : list (list R)) (bias0 : list R) (args : hyperparameters)
  (training : bool) (keep : nat -> bool)
  (ids_seq attn_masks : tensor Z) (token_type_ids : option (tensor Z))
  (sequence_output pooled : tensor R) (lead : list nat) (d : nat) :
  am_forward (from_pretrained (base_path args)) ids_seq attn_masks
    token_type_ids = Ok (sequence_output, pooled) ->
  shape pooled = (lead ++ [d])%list ->
  d <> 768%nat ->
  MainModel.forward
    (MainModel.__init__ from_pretrained weight0 bias0 args)
    training keep ids_seq attn_masks token_type_ids
  = Raise RuntimeError.
Proof.
  intros Henc Hshape Hd.
  unfold MainModel.forward, MainModel.__init__.
  cbn [MainModel.base MainModel.dropout MainModel.linear].
  rewrite Henc. cbn [rbind snd].
  unfold apply_Linear.
  replace (shape (Dropout (3 / 10) training keep pooled)) with (shape pooled)
    by (unfold Dropout; destruct training; reflexivity).
  rewrite Hshape, rev_app_distr. cbn [rev app in_features].
  now apply Nat.eqb_neq in Hd as ->.
Qed.

Lemma forward_rejects_other_hidden_size_witness :
  MainModel.forward
    (MainModel.__init__ (fun _ => large_encoder) [repeat 0%R 768] [0%R]
       hparams0)
    false keep_all
    (mkTensor [2; 4]%nat (repeat 0%Z 8))
    (mkTensor [2; 4]%nat (repeat 1%Z 8)) None
  = Raise RuntimeError.
Proof.
  apply (@forward_rejects_other_hidden_size (fun _ => large_encoder)
           [repeat 0%R 768] [0%R] hparams0 false keep_all
           (mkTensor [2; 4]%nat (repeat 0%Z 8))
           (mkTensor [2; 4]%nat (repeat 1%Z 8)) None
           (mkTensor [2; 4; 1024]%nat [])
           (mkTensor [2; 1024]%nat (repeat 0%R (2 * 1024)))
           [2]%nat 1024%nat).
  - reflexivity.
  - reflexivity.
  - discriminate.
Defined.

(** ** The metric calls of the binary epoch ends are symmetric *)

Lemma agree_count_sym (a : list Z) :
  forall b : list Z,
    metrics.count_if metrics.agree (combine a b)
    = metrics.count_if metrics.agree (combine b a).
Proof.
  unfold metrics.count_if, metrics.agree.
  induction a as [| x a IH]; intros [| y b]; try reflexivity.
  cbn [combine filter fst snd]. rewrite (Z.eqb_sym x y).
  destruct (y =? x)%Z; simpl; now rewrite IH.
Qed.

Lemma true_positive_count_sym (l : Z) (a : list Z) :
  forall b : list Z,
    metrics.count_if
      (fun p => metrics.is_label l (fst p) && metrics.is_label l (snd p))
      (combine a b)
    = metrics.count_if
        (fun p => metrics.is_label l (fst p) && metrics.is_label l (snd p))
        (combine b a).
Proof.
  unfold metrics.count_if.
  induction a as [| x a IH]; intros [| y b]; try reflexivity.
  cbn [combine filter fst snd].
  rewrite (andb_comm (metrics.is_label l x)).
  destruct (metrics.is_label l y && metrics.is_label l x); simpl;
    now rewrite IH.
Qed.

Lemma f1_label_sym (l : Z) (a b : list Z) :
  metrics.f1_label l a b = metrics.f1_label l b a.
Proof.
  unfold metrics.f1_label.
  rewrite (true_positive_count_sym l a b).
  now rewrite (Nat.add_comm (metrics.count_if (metrics.is_label l) a)).
Qed.

Lemma unique_labels_In (a b : list Z) (z : Z) :
  In z (metrics.unique_labels a b) <-> In z a \/ In z b.
Proof.
  unfold metrics.unique_labels. rewrite nodup_In. apply in_app_iff.
Qed.

Lemma unique_labels_length_sym (a b : list Z) :
  length (metrics.unique_labels a b) = length (metrics.unique_labels b a).
Proof.
  apply Nat.le_antisymm; apply NoDup_incl_length;
    try apply NoDup_nodup;
    intros z Hz; apply unique_labels_In; apply unique_labels_In in Hz;
    tauto.
Qed.

Lemma unique_labels_existsb_sym (f : Z -> bool) (a b : list Z) :
  existsb f (metrics.unique_labels a b)
  = existsb f (metrics.unique_labels b a).
Proof.
  apply eq_true_iff_eq. rewrite !existsb_exists.
  split; intros [z [Hz Hf]]; exists z; split; auto;
    apply unique_labels_In; apply unique_labels_In in Hz; tauto.
Qed.

(** X15. The binary epoch ends hand the predictions to the metrics in the
    place of the true labels and the labels in the place of the
    predictions; accuracy and binary F1 do not depend on the order, so
    the logged values (and the errors) are those of the documented
    order. *)
Theorem binary_metrics_argument_order (y_pred y_true : list Z) :
  metrics.accuracy_score y_pred y_true = metrics.accuracy_score y_true y_pred
  /\ metrics.f1_score y_pred y_true = metrics.f1_score y_true y_pred.
Proof.
  split.
  - unfold metrics.accuracy_score.
    rewrite (Nat.eqb_sym (length y_pred)).
    destruct (length y_true =? length y_pred)%nat eqn:Hlen; [| reflexivity].
    apply Nat.eqb_eq in Hlen.
    unfold metrics.accuracy_value.
    destruct y_pred as [| p y_pred], y_true as [| t y_true];
      try discriminate; [reflexivity |].
    rewrite (agree_count_sym (p :: y_pred) (t :: y_true)).
    now rewrite Hlen.
  - unfold metrics.f1_score.
    rewrite (Nat.eqb_sym (length y_pred)).
    rewrite (unique_labels_length_sym y_pred y_true).
    rewrite (unique_labels_existsb_sym (metrics.is_label 1) y_pred y_true).
    now rewrite (f1_label_sym 1 y_pred y_true).
Qed.

(** ** The weighted cross-entropy on a batch *)

Lemma firstn_skipn_row {A} (x rest : list A) (n : nat) :
  length x = n ->
  firstn n (x ++ rest) = x /\ skipn n (x ++ rest) = rest.
Proof.
  intros <-. split.
  - rewrite firstn_app, Nat.sub_diag, firstn_all. simpl. apply app_nil_r.
  - rewrite skipn_app, Nat.sub_diag, skipn_all. reflexivity.
Qed.

(** X16. A sample whose target is the sentinel -100 contributes nothing to
    [loss_fn]: the loss of a batch that starts with such a sample is the
    loss of the rest of the batch. *)
Theorem loss_fn_ignores_sentinel_sample (x rest : list R) (ys : list Z)
  (N : nat) :
  length x = 3%nat ->
  LightningModuleForAutoModels.loss_fn
    (mkTensor [S N; 3]%nat (x ++ rest)) (mkTensor [S N] (-100 :: ys)%Z)
  = LightningModuleForAutoModels.loss_fn
      (mkTensor [N; 3]%nat rest) (mkTensor [N] ys).
Proof.
  intro Hx.
  destruct (firstn_skipn_row x rest Hx) as [Hfirst Hskip].
  unfold LightningModuleForAutoModels.loss_fn,
    LightningModuleForAutoModels.CrossEntropyLoss.
  cbn [shape data Nat.eqb length negb].
  cbn [forallb rows_of].
  rewrite Hfirst, Hskip.
  cbn [combine filter snd].
  change (LightningModuleForAutoModels.in_range 3 (-100)) with true.
  change (LightningModuleForAutoModels.ignored (-100)) with true.
  cbn [negb andb]. reflexivity.
Qed.

Lemma loss_fn_ignores_sentinel_sample_witness :
  LightningModuleForAutoModels.loss_fn
    (mkTensor [2; 3]%nat ([0%R; 1%R; 0%R] ++ class2_logits)%list)
    (mkTensor [2]%nat [-100; 2]%Z)
  = LightningModuleForAutoModels.loss_fn
      (mkTensor [1; 3]%nat class2_logits) (mkTensor [1]%nat [2%Z]).
Proof.
  apply (@loss_fn_ignores_sentinel_sample [0; 1; 0]%R class2_logits
           [2%Z] 1%nat).
  reflexivity.
Defined.

(** X17. [loss_fn] is tied to three classes and to class-index targets: it
    raises a [RuntimeError] on logits with another number of classes, a
    [ValueError] when logits and targets differ in batch size, and an
    [IndexError] when a target is neither the sentinel nor one of the
    classes 0, 1, 2. *)
Theorem loss_fn_rejects (logits : tensor R) (targets : tensor Z)
  (N N' C : nat) :
  shape logits = [N; C] ->
  shape targets = [N'] ->
  (N <> N' ->
   LightningModuleForAutoModels.loss_fn logits targets = Raise ValueError)
  /\ (N = N' -> C <> 3%nat ->
      LightningModuleForAutoModels.loss_fn logits targets
      = Raise RuntimeError)
  /\ (N = N' -> C = 3%nat -> Exists (bad_target 3) (data targets) ->
      LightningModuleForAutoModels.loss_fn logits targets
      = Raise IndexError).
Proof.
  intros Hl Ht.
  unfold LightningModuleForAutoModels.loss_fn,
    LightningModuleForAutoModels.CrossEntropyLoss.
  rewrite Hl, Ht. cbn [length].
  split; [| split].
  - intro Hne. now apply Nat.eqb_neq in Hne as ->.
  - intros <- HC. rewrite Nat.eqb_refl.
    now apply Nat.eqb_neq in HC as ->.
  - intros <- -> Hbad. rewrite Nat.eqb_refl. cbn [Nat.eqb negb].
    replace (forallb (LightningModuleForAutoModels.in_range 3)
               (data targets)) with false; [reflexivity |].
    symmetry. apply not_true_is_false. intro Hall.
    rewrite forallb_forall in Hall.
    apply Exists_exists in Hbad. destruct Hbad as [y [Hin [Hne Hout]]].
    specialize (Hall y Hin).
    unfold LightningModuleForAutoModels.in_range,
      LightningModuleForAutoModels.ignored in Hall.
    apply orb_true_iff in Hall. destruct Hall as [Hs | Hr].
    + apply Z.eqb_eq in Hs. contradiction.
    + apply andb_true_iff in Hr. destruct Hr as [H0 H3].
      apply Z.leb_le in H0. apply Z.ltb_lt in H3.
      change (Z.of_nat 3) with 3%Z in *. lia.
Qed.

Lemma loss_fn_rejects_witness :
  LightningModuleForAutoModels.loss_fn
    (mkTensor [1; 2]%nat [0; 1]%R) (mkTensor [1]%nat [1%Z])
  = Raise RuntimeError
  /\ LightningModuleForAutoModels.loss_fn
       (mkTensor [1; 3]%nat [0; 1; 0]%R) (mkTensor [1]%nat [3%Z])
     = Raise IndexError.
Proof.
  split.
  - apply (@loss_fn_rejects (mkTensor [1; 2]%nat [0; 1]%R)
             (mkTensor [1]%nat [1%Z]) 1%nat 1%nat 2%nat eq_refl eq_refl);
      [reflexivity | discriminate].
  - apply (@loss_fn_rejects (mkTensor [1; 3]%nat [0; 1; 0]%R)
             (mkTensor [1]%nat [3%Z]) 1%nat 1%nat 3%nat eq_refl eq_refl);
      [reflexivity | reflexivity |].
    constructor. split; [discriminate | right; simpl; lia].
Defined.

(** ** The lifecycle only appends to the output channels *)

Lemma with_nothing {Net} (s : LightningModule Net) :
  s = with_logs (with_print s []) [].
Proof.
  destruct s. unfold with_logs, with_print. simpl.
  now rewrite !app_nil_r.
Qed.

Lemma with_more {Net} (s : LightningModule Net) es1 ps1 es2 ps2 :
  with_logs (with_print (with_logs (with_print s ps1) es1) ps2) es2
  = with_logs (with_print s (ps1 ++ ps2)%list) (es1 ++ es2)%list.
Proof.
  unfold with_logs, with_print. simpl. now rewrite !app_assoc.
Qed.

Section Appends.
Context {Net : Type}.
Variable printing : bool.

Lemma appends_pure {A} (m : M (LightningModule Net) A) :
  (forall s, snd (m s) = s) -> only_appends printing m.
Proof.
  intros H s. exists [], []. rewrite H. split; [apply with_nothing | auto].
Qed.

Lemma appends_ret {A} (a : A) :
  only_appends printing (ret a : M (LightningModule Net) A).
Proof. now apply appends_pure. Qed.

Lemma appends_lift {A} (r : result A) :
  only_appends printing (lift r : M (LightningModule Net) A).
Proof. now apply appends_pure. Qed.

Lemma appends_gets {A} (f : LightningModule Net -> A) :
  only_appends printing (gets f).
Proof. now apply appends_pure. Qed.

Lemma appends_log (name : string) (v : log_value) (os oe : option bool)
  (pb lg : bool) :
  only_appends printing
    (log name v os oe pb lg : M (LightningModule Net) unit).
Proof.
  intro s. exists [mkLog name v os oe pb lg], []. split; [| auto].
  destruct s. unfold log, modify, with_logs, with_print. simpl.
  now rewrite app_nil_r.
Qed.

Lemma appends_log_default (name : string) (v : log_value) :
  only_appends printing
    (log_default name v : M (LightningModule Net) unit).
Proof. apply appends_log. Qed.

Lemma appends_bind {A B} (m : M (LightningModule Net) A)
  (k : A -> M (LightningModule Net) B) :
  only_appends printing m ->
  (forall a, only_appends printing (k a)) ->
  only_appends printing (bind m k).
Proof.
  intros Hm Hk s. unfold bind.
  destruct (Hm s) as (es1 & ps1 & H1 & Hp1).
  destruct (m s) as [[a | e] s1]; cbn [snd] in *.
  - destruct (Hk a s1) as (es2 & ps2 & H2 & Hp2).
    exists (es1 ++ es2)%list, (ps1 ++ ps2)%list.
    rewrite H2, H1, with_more. split; [reflexivity |].
    intro Hq. now rewrite (Hp1 Hq), (Hp2 Hq).
  - exists es1, ps1. auto.
Qed.
End Appends.

Lemma appends_print {Net} (tag : string) (a f : metrics.score) :
  only_appends true (print tag a f : M (LightningModule Net) unit).
Proof.
  intro s. exists [], [mkPrinted tag a f]. split; [| discriminate].
  destruct s. unfold print, modify, with_logs, with_print. simpl.
  now rewrite app_nil_r.
Qed.

Create HintDb appends.
#[export] Hint Resolve appends_ret appends_lift appends_gets appends_log
  appends_log_default appends_print : appends.

Ltac appends_hook :=
  cbv delta [SequenceClassicationLightningModule.training_step
             SequenceClassicationLightningModule.validation_step
             SequenceClassicationLightningModule.shared_step
             SequenceClassicationLightningModule.configure_optimizers
             SequenceClassicationLightningModule.training_epoch_end
             SequenceClassicationLightningModule.validation_epoch_end
             SequenceClassicationLightningModule.epoch_end
             LightningModuleForTokenClassification.training_step
             LightningModuleForTokenClassification.validation_step
             LightningModuleForTokenClassification.test_step
             LightningModuleForTokenClassification.call_model
             LightningModuleForTokenClassification.configure_optimizers
             LightningModuleForTokenClassification.training_epoch_end
             LightningModuleForTokenClassification.validation_epoch_end
             LightningModuleForTokenClassification.test_epoch_end
             LightningModuleForAutoModels.training_step
             LightningModuleForAutoModels.validation_step
             LightningModuleForAutoModels.test_step
             LightningModuleForAutoModels.call_model
             LightningModuleForAutoModels.configure_optimizers
             LightningModuleForAutoModels.training_epoch_end
             LightningModuleForAutoModels.validation_epoch_end
             LightningModuleForAutoModels.test_epoch_end];
  cbv beta;
  repeat (apply appends_bind; [| intro]); auto with appends.

Lemma appends_call_binary (h : binary_hook)
  (s : SequenceClassicationLightningModule.module) :
  exists es, call_binary s h = with_logs s es.
Proof.
  assert (exists es ps,
             call_binary s h = with_logs (with_print s ps) es
             /\ (false = false -> ps = [])) as (es & ps & H & Hp).
  { destruct h; unfold call_binary, after;
      match goal with
      | |- context [snd (?m s)] =>
          let H := fresh in
          assert (only_appends false m) as H by appends_hook; apply H
      end. }
  exists es. rewrite H, (Hp eq_refl).
  destruct s. unfold with_logs, with_print. simpl. now rewrite app_nil_r.
Qed.

Lemma appends_call_token (h : task_hook)
  (s : LightningModuleForTokenClassification.module) :
  exists es, call_token s h = with_logs s es.
Proof.
  assert (exists es ps,
             call_token s h = with_logs (with_print s ps) es
             /\ (false = false -> ps = [])) as (es & ps & H & Hp).
  { destruct h; unfold call_token, after;
      match goal with
      | |- context [snd (?m s)] =>
          let H := fresh in
          assert (only_appends false m) as H by appends_hook; apply H
      end. }
  exists es. rewrite H, (Hp eq_refl).
  destruct s. unfold with_logs, with_print. simpl. now rewrite app_nil_r.
Qed.

Lemma appends_call_auto (h : task_hook)
  (s : LightningModuleForAutoModels.module) :
  exists es ps, call_auto s h = with_logs (with_print s ps) es.
Proof.
  assert (exists es ps,
             call_auto s h = with_logs (with_print s ps) es
             /\ (true = false -> ps = [])) as (es & ps & H & _).
  { destruct h; unfold call_auto, after;
      match goal with
      | |- context [snd (?m s)] =>
          let H := fresh in
          assert (only_appends true m) as H by appends_hook; apply H
      end. }
  now exists es, ps.
Qed.

Lemma with_logs_twice {Net} (s : LightningModule Net) es1 es2 :
  with_logs (with_logs s es1) es2 = with_logs s (es1 ++ es2)%list.
Proof. unfold with_logs. simpl. now rewrite app_assoc. Qed.

(** X18. Over any sequence of lifecycle calls, returning or raising, a
    module object changes only by growing output: the network and the
    mode flag stay as they are, entries already logged are never removed
    or altered, and new ones are appended. The binary and the token
    module never write to the standard output; the Auto module only
    appends to it. *)
Theorem lifecycle_only_appends_output :
  (forall (hooks : list binary_hook) s,
      exists es, fold_left call_binary hooks s = with_logs s es)
  /\ (forall (hooks : list task_hook) s,
         exists es, fold_left call_token hooks s = with_logs s es)
  /\ (forall (hooks : list task_hook) s,
         exists es ps,
           fold_left call_auto hooks s = with_logs (with_print s ps) es).
Proof.
  split; [| split].
  - induction hooks as [| h hooks IH]; intro s.
    + exists []. destruct s. unfold with_logs. simpl.
      now rewrite app_nil_r.
    + simpl. destruct (appends_call_binary h s) as [es1 ->].
      destruct (IH (with_logs s es1)) as [es2 ->].
      exists (es1 ++ es2)%list. apply with_logs_twice.
  - induction hooks as [| h hooks IH]; intro s.
    + exists []. destruct s. unfold with_logs. simpl.
      now rewrite app_nil_r.
    + simpl. destruct (appends_call_token h s) as [es1 ->].
      destruct (IH (with_logs s es1)) as [es2 ->].
      exists (es1 ++ es2)%list. apply with_logs_twice.
  - induction hooks as [| h hooks IH]; intro s.
    + exists [], []. apply with_nothing.
    + simpl. destruct (appends_call_auto h s) as (es1 & ps1 & ->).
      destruct (IH (with_logs (with_print s ps1) es1))
        as (es2 & ps2 & ->).
      exists (es1 ++ es2)%list, (ps1 ++ ps2)%list. apply with_more.
Qed.

(** ** Soft targets and the integer cast *)

Lemma trunc1_fraction (t : R) : (-1 < t < 1)%R -> trunc1 t = 0%Z.
Proof.
  intro Ht. unfold trunc1.
  destruct (Rle_dec 0 t).
  - apply Zfloor_eq. simpl. lra.
  - apply Zceil_eq. simpl. lra.
Qed.

(** X19. The loss accepts soft targets, but the epoch ends cast the targets
    to integers, rounding toward zero: when every buffered target lies
    strictly between -1 and 1, the array of true labels the metrics
    receive is all zeros. *)
Theorem soft_targets_count_as_zero (outs : list (step_output R)) :
  outs <> [] ->
  Forall buffered_1d outs ->
  Forall (fun t => -1 < t < 1)%R (epoch_targets outs) ->
  SequenceClassicationLightningModule.epoch_arrays outs
  = Ok (threshold_predictions (epoch_logits outs),
        repeat 0%Z (length (epoch_targets outs))).
Proof.
  intros Hne Hall Hsoft.
  rewrite (binary_epoch_arrays Hne Hall). do 2 f_equal.
  induction Hsoft as [| t ts Ht _ IH]; [reflexivity |].
  cbn [map length repeat]. now rewrite (trunc1_fraction Ht), IH.
Qed.

Lemma soft_targets_count_as_zero_witness :
  SequenceClassicationLightningModule.epoch_arrays
    [ mkOut (Some 0%R) (mkTensor [2]%nat [2; -2]%R)
            (mkTensor [2]%nat [9 / 10; 1 / 10]%R) ]
  = Ok (threshold_predictions [2; -2]%R, [0; 0]%Z).
Proof.
  apply (@soft_targets_count_as_zero
           [ mkOut (Some 0%R) (mkTensor [2]%nat [2; -2]%R)
                   (mkTensor [2]%nat [9 / 10; 1 / 10]%R) ]).
  - discriminate.
  - repeat constructor.
  - unfold epoch_targets. simpl.
    constructor; [lra |]. constructor; [lra |]. constructor.
Defined.

(** ** The weighted cross-entropy is not negative *)

Lemma rows_of_exact {A} (n d : nat) :
  forall l : list A,
    length l = (n * d)%nat ->
    Forall (fun row => length row = d) (rows_of n d l).
Proof.
  induction n as [| n IH]; intros l Hlen; simpl; constructor.
  - rewrite length_firstn. simpl in Hlen. lia.
  - apply IH. rewrite length_skipn. simpl in Hlen. lia.
Qed.

Lemma Rsum_In_le (l : list R) (v : R) :
  Forall (fun u => 0 <= u)%R l -> In v l -> (v <= Rsum l)%R.
Proof.
  induction 1 as [| u l Hu Hl IH]; intro Hin; [contradiction |].
  simpl. pose proof (Rsum_nonneg Hl).
  destruct Hin as [-> | Hin]; [lra | specialize (IH Hin); lra].
Qed.

Lemma log_softmax_nonpos (x : list R) (y : nat) :
  (y < length x)%nat ->
  (LightningModuleForAutoModels.log_softmax_at x y <= 0)%R.
Proof.
  intro Hy.
  assert (x <> []) as Hx by (intros ->; simpl in Hy; lia).
  rewrite (log_softmax_is_ln_softmax y Hx).
  pose proof (Rsum_exp_pos Hx) as Hpos.
  assert (exp (nth y x 0) <= Rsum (map exp x))%R as Hle.
  { apply Rsum_In_le.
    - apply Forall_map, Forall_forall. intros u _. left. apply exp_pos.
    - rewrite <- (map_nth exp). apply nth_In. now rewrite length_map. }
  pose proof (exp_pos (nth y x 0%R)) as He.
  assert (Rsum (map exp x) * / Rsum (map exp x) = 1)%R as Hinv
    by (apply Rinv_r; lra).
  pose proof (Rinv_0_lt_compat _ Hpos) as Hip.
  apply ln_nonpos. unfold softmax_at, Rdiv. split; nra.
Qed.

Lemma class_weight_pos (y : Z) :
  (0 <= y < 3)%Z ->
  (0 < nth (Z.to_nat y) [(3 / 10)%R; 1%R; (1 / 10)%R] 0)%R.
Proof.
  intro Hy.
  assert (y = 0 \/ y = 1 \/ y = 2)%Z as [-> | [-> | ->]] by lia;
    simpl; lra.
Qed.

(** X20. On well-formed logits over three classes with at least one
    target that is not the sentinel, whenever [loss_fn] returns, its
    value is not negative. *)
Theorem loss_fn_nonnegative (logits : tensor R) (targets : tensor Z)
  (N : nat) (l : R) :
  shape logits = [N; 3]%nat ->
  length (data logits) = (N * 3)%nat ->
  length (data targets) = N ->
  Exists (fun y => y <> (-100)%Z) (data targets) ->
  LightningModuleForAutoModels.loss_fn logits targets = Ok l ->
  (0 <= l)%R.
Proof.
  intros Hshape Hwf _ _ Hloss.
  unfold LightningModuleForAutoModels.loss_fn,
    LightningModuleForAutoModels.CrossEntropyLoss in Hloss.
  rewrite Hshape in Hloss.
  destruct (shape targets) as [| N' [| ? ?]]; try discriminate.
  destruct (N =? N')%nat; [| discriminate].
  cbn [length Nat.eqb negb] in Hloss.
  destruct (forallb (LightningModuleForAutoModels.in_range 3)
              (data targets)) eqn:Hrange; [| discriminate].
  cbn [negb] in Hloss. inversion Hloss; subst l. clear Hloss.
  match goal with
  | |- context [map _ (filter ?f ?l)] => remember (filter f l) as kept eqn:Hkd
  end.
  assert (forall xy, In xy kept ->
                     length (fst xy) = 3%nat /\ (0 <= snd xy < 3)%Z)
    as Hkept.
  { intros [x y] Hin. rewrite Hkd in Hin.
    apply filter_In in Hin. destruct Hin as [Hin Hign]. cbn [fst snd] in *.
    split.
    - apply in_combine_l in Hin.
      exact (proj1 (Forall_forall _ _) (rows_of_exact N 3 _ Hwf) x Hin).
    - apply in_combine_r in Hin.
      rewrite forallb_forall in Hrange. specialize (Hrange y Hin).
      unfold LightningModuleForAutoModels.in_range in Hrange.
      apply negb_true_iff in Hign. rewrite Hign in Hrange.
      cbn [orb] in Hrange. apply andb_true_iff in Hrange.
      destruct Hrange as [H0 H3].
      apply Z.leb_le in H0. apply Z.ltb_lt in H3.
      change (Z.of_nat 3) with 3%Z in H3. lia. }
  clear Hkd. destruct kept as [| xy0 kept'].
  - simpl. unfold Rdiv. rewrite Rmult_0_l. lra.
  - apply Rmult_le_pos.
    + apply Rsum_nonneg, Forall_map, Forall_forall.
      intros xy Hin. destruct (Hkept xy Hin) as [Hlen Hy].
      unfold LightningModuleForAutoModels.weighted_nll.
      pose proof (class_weight_pos Hy) as Hw.
      assert (LightningModuleForAutoModels.log_softmax_at (fst xy)
                (Z.to_nat (snd xy)) <= 0)%R as Hls
        by (apply log_softmax_nonpos; lia).
      nra.
    + left. apply Rinv_0_lt_compat.
      assert (forall l' : list (list R * Z),
                 (forall xy, In xy l' -> (0 <= snd xy < 3)%Z) ->
                 l' <> [] ->
                 (0 < Rsum (map (fun xy => nth (Z.to_nat (snd xy))
                                             [(3 / 10)%R; 1%R; (1 / 10)%R] 0)
                                l'))%R) as Hpos.
      { induction l' as [| a l' IH]; intros Hin Hne; [congruence |].
        simpl.
        pose proof (class_weight_pos (Hin a (or_introl eq_refl))) as Ha.
        destruct l' as [| b l''].
        - simpl. simpl in Ha. lra.
        - assert (0 < Rsum (map (fun xy => nth (Z.to_nat (snd xy))
                                   [(3 / 10)%R; 1%R; (1 / 10)%R] 0)
                              (b :: l'')))%R
            by (apply IH; [intros; apply Hin; now right | discriminate]).
          simpl in *. lra. }
      apply Hpos.
      * intros xy Hin. apply (Hkept xy Hin).
      * discriminate.
Qed.

Lemma loss_fn_nonnegative_witness :
  (0 <= - ln (softmax_at class2_logits 2))%R.
Proof.
  apply (@loss_fn_nonnegative (one_sample class2_logits) (one_target 2)
           1%nat).
  - reflexivity.
  - reflexivity.
  - reflexivity.
  - constructor. discriminate.
  - apply loss_fn_one_sample; [reflexivity | lia].
Defined.
